(** * Task pipeline: ingestion handler and queue processor

    A shallow embedding of the two Lambda handlers of the repository,

    - [src/api/handler.py]: [validate_task], [sanitize_task],
      [send_to_queue], [create_response], [lambda_handler];
    - [src/queue_processor/handler.py]: [process_task], [lambda_handler];

    followed by the properties the specification states about them.

    Python values are the values [json.loads] can produce.  A [dict] with
    string keys is a [gmap string pyval].  A Python [str] is a [string]
    whose characters are read as the code points U+0000..U+00FF, so that
    [len], [strip] and [lower] below are the Python ones on that range.

    Exceptions are values of [exn]; a computation that may raise returns an
    [outcome].  Code that logs, draws identifiers, reads the clock or calls
    the broker runs in the monad [M] over an explicit [world].

    Library functions whose text is not part of the repository
    ([json.loads], [json.dumps], [datetime.fromisoformat], [uuid.uuid4],
    [datetime.now], the broker's [send_message]) are Section variables:
    every theorem holds for each behaviour they may have.  So is the
    outcome of [boto3.client("sqs")], which creates the broker client or
    raises.  A logger call is recorded in the world and does not raise. *)

From Stdlib Require Import ZArith Ascii.
From stdpp Require Import base option list gmap strings pretty.

Set Warnings "-register-all".

Open Scope Z_scope.

(** ** Python values and exceptions *)

Inductive pyval : Type :=
  | PNone
  | PBool (b : bool)
  | PInt (z : Z)
  | PFloat (bits : Z)          (* a binary64, as its bit pattern *)
  | PStr (s : string)
  | PList (l : list pyval)
  | PDict (d : gmap string pyval).

Inductive exn : Type :=
  | JSONDecodeError (msg : string)
  | ProcessingError (msg : string)
  | ClientError (msg : string)
  | AttributeError (msg : string)
  | TypeError (msg : string)
  | KeyError (key : string)
  | ValueError (msg : string)
  | OtherError (msg : string).

(** [str(e)] *)
Definition exn_str (e : exn) : string :=
  match e with
  | JSONDecodeError m | ProcessingError m | ClientError m | AttributeError m
  | TypeError m | ValueError m | OtherError m => m
  | KeyError k => "'" +:+ k +:+ "'"
  end.

Inductive outcome (A : Type) : Type :=
  | Return (a : A)
  | Raise (e : exn).
Arguments Return {A} a.
Arguments Raise {A} e.

Global Instance outcome_ret : MRet outcome := λ A a, Return a.
Global Instance outcome_bind : MBind outcome := λ A B f m,
  match m with
  | Return a => f a
  | Raise e => Raise e
  end.

Definition raised {A} (o : outcome A) : bool :=
  match o with Raise _ => true | Return _ => false end.

(** ** Strings *)

Module Str.

(** [ch.isspace()] for a code point below 256: the ASCII white space
    (TAB..CR, FS..US, SPACE) and U+0085, U+00A0. *)
Definition isspace (c : ascii) : bool :=
  let n := N_of_ascii c in
  ((9 <=? n) && (n <=? 13) || (28 <=? n) && (n <=? 32)
   || (n =? 133) || (n =? 160))%N.

Definition is_empty (s : string) : bool :=
  match s with EmptyString => true | String _ _ => false end.

Fixpoint lstrip (s : string) : string :=
  match s with
  | EmptyString => EmptyString
  | String c s' => if isspace c then lstrip s' else s
  end.

Fixpoint rstrip (s : string) : string :=
  match s with
  | EmptyString => EmptyString
  | String c s' =>
      let r := rstrip s' in
      if isspace c && is_empty r then EmptyString else String c r
  end.

(** [s.strip()] *)
Definition strip (s : string) : string := rstrip (lstrip s).

(** [ch.lower()] below 256: A-Z, and U+00C0..U+00DE except U+00D7. *)
Definition lower_char (c : ascii) : ascii :=
  let n := N_of_ascii c in
  if ((65 <=? n) && (n <=? 90)
      || (192 <=? n) && (n <=? 222) && negb (n =? 215))%N
  then ascii_of_N (n + 32) else c.

(** [s.lower()] *)
Fixpoint lower (s : string) : string :=
  match s with
  | EmptyString => EmptyString
  | String c s' => String (lower_char c) (lower s')
  end.

(** [len(s)] *)
Definition len (s : string) : Z := Z.of_nat (String.length s).

(** [sub in s] *)
Fixpoint contains (sub s : string) : bool :=
  String.prefix sub s ||
  match s with
  | EmptyString => false
  | String _ s' => contains sub s'
  end.

(** [s.replace(old, new)] for a non-empty [old]: occurrences are replaced
    from the left and do not overlap; [skip] counts the characters of a
    replaced occurrence that are still to be dropped. *)
Fixpoint replace_from (old new : string) (skip : nat) (s : string) : string :=
  match s with
  | EmptyString => EmptyString
  | String c s' =>
      match skip with
      | S k => replace_from old new k s'
      | O =>
          if String.prefix old s
          then new +:+ replace_from old new (Nat.pred (String.length old)) s'
          else String c (replace_from old new O s')
      end
  end.

Definition replace (old new s : string) : string := replace_from old new O s.

(** The [width] low decimal digits of [n], most significant first: the
    [%0<width>d] rendering of an [n] below [10 ^ width]. *)
Definition digit (n : N) : ascii := ascii_of_N (48 + n mod 10).

Fixpoint digits (width : nat) (n : N) : string :=
  match width with
  | O => EmptyString
  | S k => digits k (n / 10) +:+ String (digit n) EmptyString
  end.

(** [sep.join(l)] *)
Definition join (sep : string) (l : list string) : string := String.concat sep l.

End Str.

(** ** Operations on values *)

(** [isinstance(v, str)] *)
Definition is_str (v : pyval) : bool :=
  match v with PStr _ => true | _ => false end.

(** [v == s] for a [str] [s] *)
Definition eq_str (v : pyval) (s : string) : bool :=
  match v with PStr t => String.eqb t s | _ => false end.

(** [bool(v)] *)
Definition truthy (v : pyval) : bool :=
  match v with
  | PNone => false
  | PBool b => b
  | PInt z => negb (z =? 0)
  | PFloat bits => negb ((bits =? 0) || (bits =? 2 ^ 63))
  | PStr s => negb (Str.is_empty s)
  | PList l => match l with [] => false | _ => true end
  | PDict d => negb (bool_decide (d = ∅))
  end.

Definition type_name (v : pyval) : string :=
  match v with
  | PNone => "NoneType"
  | PBool _ => "bool"
  | PInt _ => "int"
  | PFloat _ => "float"
  | PStr _ => "str"
  | PList _ => "list"
  | PDict _ => "dict"
  end.

(** [key in v] for a [str] key: key membership in a dict, element
    membership in a list, substring test in a str; the other values are
    not containers. *)
Definition contains (v : pyval) (key : string) : outcome bool :=
  match v with
  | PDict d => Return (if d !! key is Some _ then true else false)
  | PList l => Return (existsb (λ x, eq_str x key) l)
  | PStr s => Return (Str.contains key s)
  | _ => Raise (TypeError ("argument of type '" +:+ type_name v +:+ "' is not iterable"))
  end.

Definition no_attribute (v : pyval) (attr : string) : exn :=
  AttributeError ("'" +:+ type_name v +:+ "' object has no attribute '" +:+ attr +:+ "'").

(** [v.get(key, default)] *)
Definition get (v : pyval) (key : string) (dflt : pyval) : outcome pyval :=
  match v with
  | PDict d => Return (default dflt (d !! key))
  | _ => Raise (no_attribute v "get")
  end.

(** [v[key]] for a [str] key *)
Definition getitem (v : pyval) (key : string) : outcome pyval :=
  match v with
  | PDict d =>
      match d !! key with
      | Some x => Return x
      | None => Raise (KeyError key)
      end
  | PList _ => Raise (TypeError "list indices must be integers or slices, not str")
  | PStr _ => Raise (TypeError "string indices must be integers, not 'str'")
  | _ => Raise (TypeError ("'" +:+ type_name v +:+ "' object is not subscriptable"))
  end.

(** [v.strip()] and [v.lower()] *)
Definition strip (v : pyval) : outcome pyval :=
  match v with
  | PStr s => Return (PStr (Str.strip s))
  | _ => Raise (no_attribute v "strip")
  end.

Definition lower (v : pyval) : outcome pyval :=
  match v with
  | PStr s => Return (PStr (Str.lower s))
  | _ => Raise (no_attribute v "lower")
  end.

(** [len(v)] *)
Definition len (v : pyval) : outcome Z :=
  match v with
  | PStr s => Return (Str.len s)
  | PList l => Return (Z.of_nat (length l))
  | PDict d => Return (Z.of_nat (size d))
  | _ => Raise (TypeError ("object of type '" +:+ type_name v +:+ "' has no len()"))
  end.

(** ** Timestamps *)

(** An aware [datetime] in [timezone.utc], its fields within their ranges
    (a year of four digits, a microsecond of six, ...). *)
Record datetime : Type := Datetime {
  year : N; month : N; day : N;
  hour : N; minute : N; second : N; microsecond : N;
}.

(** [t.isoformat()] without the offset: [YYYY-MM-DDTHH:MM:SS], followed by
    [.ffffff] when the microsecond is not zero. *)
Definition isoformat_naive (t : datetime) : string :=
  Str.digits 4 (year t) +:+ "-" +:+ Str.digits 2 (month t) +:+ "-" +:+
  Str.digits 2 (day t) +:+ "T" +:+ Str.digits 2 (hour t) +:+ ":" +:+
  Str.digits 2 (minute t) +:+ ":" +:+ Str.digits 2 (second t) +:+
  (if (microsecond t =? 0)%N then EmptyString
   else "." +:+ Str.digits 6 (microsecond t)).

(** [t.isoformat()] *)
Definition isoformat (t : datetime) : string := isoformat_naive t +:+ "+00:00".

(** ** The world and the monad of effects *)

Inductive level : Type := DEBUG | INFO | WARNING | ERROR.

(** One call of a [logger] method: the f-string's text with [{}] for each
    interpolated expression, and the interpolated values. *)
Record log_entry : Type := Log {
  log_level : level;
  log_text : string;
  log_args : list pyval;
}.

(** The arguments of one [sqs.send_message] call. *)
Record send_request : Type := SendMessage {
  QueueUrl : string;
  MessageBody : string;
  MessageGroupId : string;
  MessageDeduplicationId : string;
}.

Record world : Type := World {
  logged : list log_entry;          (* logger calls so far, oldest first *)
  sqs_client : bool;                (* [_sqs_client is not None] *)
  sqs_calls : list send_request;    (* [send_message] calls so far *)
  uuid_draws : nat;                 (* [uuid.uuid4()] calls so far *)
  clock_reads : nat;                (* [datetime.now()] calls so far *)
}.

Definition initial_world : world :=
  {| logged := []; sqs_client := false; sqs_calls := [];
     uuid_draws := 0; clock_reads := 0 |}.

Definition M (A : Type) : Type := world → outcome A * world.

Global Instance M_ret : MRet M := λ A a w, (Return a, w).
Global Instance M_bind : MBind M := λ A B f m w,
  match m w with
  | (Return a, w') => f a w'
  | (Raise e, w') => (Raise e, w')
  end.

(** A computation without effects, run inside [M]. *)
Definition lift {A} (o : outcome A) : M A := λ w, (o, w).

Definition raise {A} (e : exn) : M A := λ w, (Raise e, w).

(** [try: body  except Exception as e: handler(e)].  What [body] did to the
    world before it raised stays done. *)
Definition try_except {A} (body : M A) (handler : exn → M A) : M A := λ w,
  match body w with
  | (Return a, w') => (Return a, w')
  | (Raise e, w') => handler e w'
  end.

Definition log (lvl : level) (text : string) (args : list pyval) : M () := λ w,
  (Return (),
   {| logged := logged w ++ [Log lvl text args]; sqs_client := sqs_client w;
      sqs_calls := sqs_calls w; uuid_draws := uuid_draws w;
      clock_reads := clock_reads w |}).


(** ** [src/queue_processor/handler.py] *)

Module QueueProcessor.

Definition required_fields : list string :=
  ["task_id"; "title"; "description"; "priority"; "created_at"].

(** The loop [for field in required_fields: if field not in task_data:
    raise ProcessingError(...)]. *)
Fixpoint check_required (fields : list string) (task_data : pyval) : M () :=
  match fields with
  | [] => mret ()
  | field :: rest =>
      present ← lift (contains task_data field);
      if negb present
      then raise (ProcessingError ("Missing required field: " +:+ field))
      else check_required rest task_data
  end.

Definition completed (task_id : pyval) : pyval :=
  PDict (<["task_id" := task_id]>
         (<["status" := PStr "completed"]>
          (<["message" := PStr "Task processed successfully"]> ∅))).

Definition process_task (task_data : pyval) : M pyval :=
  task_id ← lift (get task_data "task_id" PNone);
  log INFO "Processing task {}" [task_id];;
  try_except
    (check_required required_fields task_data;;
     title ← lift (getitem task_data "title");
     priority ← lift (getitem task_data "priority");
     log INFO "Task {} processed successfully: {} (priority: {})"
         [task_id; title; priority];;
     mret (completed task_id))
    (λ e,
       match e with
       | ProcessingError _ => raise e
       | _ =>
           log ERROR "Error processing task {}: {}" [task_id; PStr (exn_str e)];;
           raise (ProcessingError ("Failed to process task: " +:+ exn_str e))
       end).

(** [for record in v]: the items the loop visits.  A dict yields its
    keys and a str its characters (either way strings, which have no
    [get]). *)
Definition iterate (v : pyval) : outcome (list pyval) :=
  match v with
  | PList l => Return l
  | PDict d => Return ((λ kv, PStr kv.1) <$> map_to_list d)
  | PStr s => Return ((λ c, PStr (String c EmptyString)) <$> String.list_ascii_of_string s)
  | _ => Raise (TypeError ("'" +:+ type_name v +:+ "' object is not iterable"))
  end.

Definition failure_entry (message_id : pyval) : pyval :=
  PDict {[ "itemIdentifier" := message_id ]}.

Definition attempt_text : string := "Processing message {} with receipt {}".

Section handler.

Variable json_loads : string → outcome pyval.

(** Lines 98-102: the task data of a record's body. *)
Definition parse_body (record : pyval) : outcome pyval :=
  body ← get record "body" (PStr "{}");
  match body with
  | PStr s => json_loads s
  | _ => Return body
  end.

(** One turn of the loop over the records. *)
Definition process_record (record : pyval) (batch_item_failures : list pyval)
  : M (list pyval) :=
  message_id ← lift (get record "messageId" PNone);
  receipt_handle ← lift (get record "receiptHandle" PNone);
  try_except
    (log DEBUG attempt_text [message_id; receipt_handle];;
     task_data ← lift (parse_body record);
     result ← process_task task_data;
     log INFO "Message {} processed successfully: {}" [message_id; result];;
     mret batch_item_failures)
    (λ e,
       match e with
       | JSONDecodeError _ =>
           log ERROR "Invalid JSON in message {}: {}"
               [message_id; PStr (exn_str e)];;
           mret (batch_item_failures ++ [failure_entry message_id])
       | ProcessingError _ =>
           log ERROR "Processing error for message {}: {}"
               [message_id; PStr (exn_str e)];;
           mret (batch_item_failures ++ [failure_entry message_id])
       | _ =>
           log ERROR "Unexpected error processing message {}: {}"
               [message_id; PStr (exn_str e)];;
           mret (batch_item_failures ++ [failure_entry message_id])
       end).

Fixpoint process_records (records : list pyval) (batch_item_failures : list pyval)
  : M (list pyval) :=
  match records with
  | [] => mret batch_item_failures
  | record :: rest =>
      failures ← process_record record batch_item_failures;
      process_records rest failures
  end.

Definition lambda_handler (event : pyval) : M pyval :=
  records ← lift (get event "Records" (PList []));
  n ← lift (len records);
  log INFO "Processing batch of {} messages" [PInt n];;
  records ← lift (get event "Records" (PList []));
  items ← lift (iterate records);
  batch_item_failures ← process_records items [];
  (if truthy (PList batch_item_failures)
   then log WARNING "Batch processing completed with {} failures"
            [PInt (Z.of_nat (length batch_item_failures))]
   else log INFO "All messages in batch processed successfully" []);;
  mret (PDict {[ "batchItemFailures" := PList batch_item_failures ]}).

End handler.

End QueueProcessor.

(** ** [src/api/handler.py] *)

Module Api.

Definition valid_priorities : list string := ["low"; "medium"; "high"].

(** The fixed message group of every task. *)
Definition message_group : string := "task-processing".

Definition default_headers : gmap string pyval :=
  <["Content-Type" := PStr "application/json"]>
  (<["Access-Control-Allow-Origin" := PStr "*"]>
   (<["Access-Control-Allow-Headers" := PStr "Content-Type"]>
    (<["Access-Control-Allow-Methods" := PStr "POST,OPTIONS"]> ∅))).

Section handler.

(** [json.loads] and [json.dumps] *)
Variable json_loads : string → outcome pyval.
Variable json_dumps : pyval → string.
(** whether [datetime.fromisoformat] parses a string *)
Variable fromisoformat_accepts : string → bool.
(** [str(uuid.uuid4())] at the n-th draw *)
Variable uuid4 : nat → string.
(** [datetime.now(timezone.utc)] at the n-th reading *)
Variable now_utc : nat → datetime.
(** [boto3.client("sqs")]: the client is created, or an exception raised *)
Variable boto3_client : outcome ().
(** what the broker answers to a [send_message], given the earlier calls *)
Variable send_message : list send_request → send_request → outcome pyval.
(** the environment's [TASK_QUEUE_URL] *)
Variable TASK_QUEUE_URL : string.

(** [datetime.fromisoformat(v)] *)
Definition fromisoformat (v : pyval) : outcome () :=
  match v with
  | PStr s =>
      if fromisoformat_accepts s then Return ()
      else Raise (ValueError ("Invalid isoformat string: '" +:+ s +:+ "'"))
  | _ => Raise (TypeError "fromisoformat: argument must be str")
  end.

(** [v.replace(old, new)] *)
Definition replace (v : pyval) (old new : string) : outcome pyval :=
  match v with
  | PStr s => Return (PStr (Str.replace old new s))
  | _ => Raise (no_attribute v "replace")
  end.

Definition validate_task (task_data : pyval) : outcome (bool * option string) :=
  (* Check required fields *)
  has_title ← contains task_data "title";
  if negb has_title then Return (false, Some "Missing required field: title") else
  has_description ← contains task_data "description";
  if negb has_description then Return (false, Some "Missing required field: description") else
  has_priority ← contains task_data "priority";
  if negb has_priority then Return (false, Some "Missing required field: priority") else
  (* Validate title *)
  title ← get task_data "title" (PStr EmptyString);
  if negb (is_str title) then Return (false, Some "title must be a string") else
  stripped ← strip title;
  if negb (truthy stripped) then Return (false, Some "title cannot be empty") else
  n ← len title;
  if 200 <? n then Return (false, Some "title cannot exceed 200 characters") else
  (* Validate description *)
  description ← get task_data "description" (PStr EmptyString);
  if negb (is_str description) then Return (false, Some "description must be a string") else
  stripped ← strip description;
  if negb (truthy stripped) then Return (false, Some "description cannot be empty") else
  n ← len description;
  if 2000 <? n then Return (false, Some "description cannot exceed 2000 characters") else
  (* Validate priority *)
  priority ← get task_data "priority" (PStr EmptyString);
  if negb (existsb (eq_str priority) valid_priorities)
  then Return (false, Some ("priority must be one of: " +:+ Str.join ", " valid_priorities))
  else
  (* Validate due_date if provided *)
  due_date ← get task_data "due_date" PNone;
  match due_date with
  | PNone => Return (true, None)
  | _ =>
      if negb (is_str due_date)
      then Return (false, Some "due_date must be a string in ISO 8601 format")
      else
        match (s ← replace due_date "Z" "+00:00"; fromisoformat s) with
        | Return _ => Return (true, None)
        | Raise (ValueError _) | Raise (AttributeError _) =>
            Return (false, Some "due_date must be in ISO 8601 format")
        | Raise e => Raise e
        end
  end.

(** ["due_date" in task_data and task_data["due_date"]], as a condition *)
Definition due_date_given (task_data : pyval) : outcome bool :=
  has_due_date ← contains task_data "due_date";
  if has_due_date : bool
  then due_date ← getitem task_data "due_date"; Return (truthy due_date)
  else Return false.

Definition sanitize_task (task_data : pyval) : outcome pyval :=
  title ← getitem task_data "title";
  title ← strip title;
  description ← getitem task_data "description";
  description ← strip description;
  priority ← getitem task_data "priority";
  priority ← strip priority;
  priority ← lower priority;
  let sanitized : gmap string pyval :=
    <["title" := title]>
    (<["description" := description]> (<["priority" := priority]> ∅)) in
  keep ← due_date_given task_data;
  if keep : bool
  then
    due_date ← getitem task_data "due_date";
    due_date ← strip due_date;
    Return (PDict (<["due_date" := due_date]> sanitized))
  else Return (PDict sanitized).

(** [{"task_id": ..., "created_at": ..., **task_data}]: the keys of
    [task_data] come last and win. *)
Definition message_body (task_id created_at : string) (task_data : pyval)
  : outcome pyval :=
  match task_data with
  | PDict d =>
      Return (PDict (d ∪ <["task_id" := PStr task_id]>
                          (<["created_at" := PStr created_at]> ∅)))
  | _ => Raise (TypeError ("'" +:+ type_name task_data +:+ "' object is not a mapping"))
  end.

Definition draw_uuid : M string := λ w,
  (Return (uuid4 (uuid_draws w)),
   {| logged := logged w; sqs_client := sqs_client w; sqs_calls := sqs_calls w;
      uuid_draws := S (uuid_draws w); clock_reads := clock_reads w |}).

Definition read_clock : M datetime := λ w,
  (Return (now_utc (clock_reads w)),
   {| logged := logged w; sqs_client := sqs_client w; sqs_calls := sqs_calls w;
      uuid_draws := uuid_draws w; clock_reads := S (clock_reads w) |}).

(** [get_sqs_client]: the client is created on first use and kept; when
    creating it raises there is still none, and the next use tries again. *)
Definition get_sqs_client : M () := λ w,
  if sqs_client w then (Return (), w)
  else
    match boto3_client with
    | Return _ =>
        (Return (),
         {| logged := logged w; sqs_client := true; sqs_calls := sqs_calls w;
            uuid_draws := uuid_draws w; clock_reads := clock_reads w |})
    | Raise e => (Raise e, w)
    end.

(** [sqs.send_message(...)]: the call is recorded, then the broker answers. *)
Definition sqs_send_message (req : send_request) : M pyval := λ w,
  (send_message (sqs_calls w) req,
   {| logged := logged w; sqs_client := sqs_client w;
      sqs_calls := sqs_calls w ++ [req];
      uuid_draws := uuid_draws w; clock_reads := clock_reads w |}).

Definition send_to_queue (task_data : pyval) : M string :=
  task_id ← draw_uuid;
  now ← read_clock;
  body ← lift (message_body task_id
                 (Str.replace "+00:00" "Z" (isoformat now)) task_data);
  try_except
    (get_sqs_client;;
     response ← sqs_send_message
       {| QueueUrl := TASK_QUEUE_URL;
          MessageBody := json_dumps body;
          MessageGroupId := message_group;
          MessageDeduplicationId := task_id |};
     log INFO "Task {} sent to queue successfully" [PStr task_id];;
     mret task_id)
    (λ e,
       match e with
       | ClientError _ =>
           log ERROR "Failed to send task to queue: {}" [PStr (exn_str e)];;
           raise e
       | _ => raise e
       end).

Definition create_response (status_code : Z) (body : pyval)
    (headers : option (gmap string pyval)) : pyval :=
  let headers :=
    match headers with
    | Some extra => if truthy (PDict extra) then extra ∪ default_headers
                    else default_headers
    | None => default_headers
    end in
  PDict (<["statusCode" := PInt status_code]>
         (<["headers" := PDict headers]>
          (<["body" := PStr (json_dumps body)]> ∅))).

Definition error_body (error : string) : pyval :=
  PDict {[ "error" := PStr error ]}.

Definition failure_body (error details : string) : pyval :=
  PDict (<["error" := PStr error]> (<["details" := PStr details]> ∅)).

Definition queued_body (task_id : string) : pyval :=
  PDict (<["task_id" := PStr task_id]>
         (<["message" := PStr "Task created successfully"]>
          (<["status" := PStr "queued"]> ∅))).

(** Lines 210-230: what the handler does with the parsed request. *)
Definition handle_task (task_data : pyval) : M pyval :=
  '(is_valid, error_message) ← lift (validate_task task_data);
  if negb is_valid
  then
    log WARNING "Validation failed: {}"
        [from_option PStr PNone error_message];;
    mret (create_response 400
            (PDict {[ "error" := from_option PStr PNone error_message ]}) None)
  else
    sanitized_task ← lift (sanitize_task task_data);
    task_id ← send_to_queue sanitized_task;
    mret (create_response 200 (queued_body task_id) None).

Definition lambda_handler (event : pyval) : M pyval :=
  log INFO "Received event: {}" [PStr (json_dumps event)];;
  try_except
    (body ← lift (get event "body" (PStr "{}"));
     match body with
     | PStr s =>
         match json_loads s with
         | Raise (JSONDecodeError _) =>
             mret (create_response 400 (error_body "Invalid JSON in request body") None)
         | Raise e => raise e
         | Return task_data => handle_task task_data
         end
     | _ => handle_task body
     end)
    (λ e,
       match e with
       | ClientError _ =>
           log ERROR "AWS service error: {}" [PStr (exn_str e)];;
           mret (create_response 500
                   (failure_body "Failed to process task" (exn_str e)) None)
       | _ =>
           log ERROR "Unexpected error: {}" [PStr (exn_str e)];;
           mret (create_response 500
                   (failure_body "Internal server error" (exn_str e)) None)
       end).

End handler.

End Api.

(** * Notions used in the statements *)

(** The world after some more logger calls. *)
Definition append_log (entries : list log_entry) (w : world) : world :=
  {| logged := logged w ++ entries; sqs_client := sqs_client w;
     sqs_calls := sqs_calls w; uuid_draws := uuid_draws w;
     clock_reads := clock_reads w |}.

(** What a computation returns or raises when started in the initial world. *)
Definition result_of {A} (m : M A) : outcome A := (m initial_world).1.

(** A computation whose only effect is to log entries satisfying [P], and
    whose outcome and entries are the same in every world. *)
Definition logs_only {A} (P : log_entry → Prop) (m : M A) : Prop :=
  ∃ o entries, Forall P entries ∧ ∀ w, m w = (o, append_log entries w).

(** The character [c] does not occur in [s]. *)
Fixpoint free_of (c : ascii) (s : string) : Prop :=
  match s with
  | EmptyString => True
  | String a s' => a ≠ c ∧ free_of c s'
  end.

Module QueueSpec.
Import QueueProcessor.

(** [record.get("messageId")] of a record that is a dict. *)
Definition message_id (record : gmap string pyval) : pyval :=
  default PNone (record !! "messageId").

(** The message a logger call announces an attempt on, if it is the
    announcement of line 94. *)
Definition announced (e : log_entry) : option pyval :=
  if decide (log_text e = attempt_text) then head (log_args e) else None.

(** The messages attempted so far, oldest first. *)
Definition attempted (w : world) : list pyval := omap announced (logged w).

(** A logger call that is not such an announcement. *)
Definition quiet (e : log_entry) : Prop := log_text e ≠ attempt_text.

(** The logger call of line 94 for a record that is a dict. *)
Definition announcement (record : gmap string pyval) : log_entry :=
  Log DEBUG attempt_text
      [message_id record; default PNone (record !! "receiptHandle")].

Section items.
Variable json_loads : string → outcome pyval.

(** Decoding a record's body, then processing the decoded task. *)
Definition item_outcome (record : pyval) : outcome pyval :=
  task_data ← parse_body json_loads record;
  result_of (process_task task_data).

(** The item's decode or processing threw. *)
Definition item_fails (record : gmap string pyval) : bool :=
  raised (item_outcome (PDict record)).

(** The entries reported for a batch: the identifiers of the records
    that fail, in the order of the batch. *)
Definition failed_identifiers (records : list (gmap string pyval)) : list pyval :=
  (λ r, failure_entry (message_id r)) <$> filter (λ r, Is_true (item_fails r)) records.
End items.

(** An event whose records are dicts (or that has no records). *)
Definition well_formed_batch (event : pyval) : Prop :=
  ∃ ev, event = PDict ev ∧
    (ev !! "Records" = None ∨
     ∃ records : list (gmap string pyval),
       ev !! "Records" = Some (PList (PDict <$> records))).

(** The result dict of the handler. *)
Definition batch_result (failures : list pyval) : pyval :=
  PDict {[ "batchItemFailures" := PList failures ]}.

(** The fields [process_task] requires that a dict lacks, in the order
    they are checked. *)
Definition missing_fields (d : gmap string pyval) : list string :=
  filter (λ f, d !! f = None) required_fields.

End QueueSpec.

Module ApiSpec.
Import Api.

(** A check of the validator: the message of its failure, if it fails. *)
Definition check : Type := gmap string pyval → option string.

(** The value the validator reads for a field. *)
Definition field (name : string) (d : gmap string pyval) : pyval :=
  default (PStr EmptyString) (d !! name).

Definition present (name : string) : check := λ d,
  if d !! name is Some _ then None
  else Some ("Missing required field: " +:+ name).

Definition string_typed (name : string) : check := λ d,
  if is_str (field name d) then None else Some (name +:+ " must be a string").

Definition not_blank (name : string) : check := λ d,
  match field name d with
  | PStr s => if Str.is_empty (Str.strip s)
              then Some (name +:+ " cannot be empty") else None
  | _ => None
  end.

Definition within (name : string) (limit : Z) (shown : string) : check := λ d,
  match field name d with
  | PStr s => if limit <? Str.len s
              then Some (name +:+ " cannot exceed " +:+ shown +:+ " characters")
              else None
  | _ => None
  end.

Definition priority_enum : check := λ d,
  if existsb (eq_str (field "priority" d)) valid_priorities then None
  else Some "priority must be one of: low, medium, high".

Definition due_date_string : check := λ d,
  match default PNone (d !! "due_date") with
  | PNone | PStr _ => None
  | _ => Some "due_date must be a string in ISO 8601 format"
  end.

Section checks.
Variable fromisoformat_accepts : string → bool.

Definition due_date_format : check := λ d,
  match default PNone (d !! "due_date") with
  | PStr s => if fromisoformat_accepts (Str.replace "Z" "+00:00" s) then None
              else Some "due_date must be in ISO 8601 format"
  | _ => None
  end.

(** The checks in the order the specification gives. *)
Definition validation_checks : list check :=
  [ present "title"; present "description"; present "priority";
    string_typed "title"; not_blank "title"; within "title" 200 "200";
    string_typed "description"; not_blank "description";
    within "description" 2000 "2000";
    priority_enum;
    due_date_string; due_date_format ].
End checks.

(** The verdict of a list of checks run in order up to the first failure. *)
Fixpoint first_failure (checks : list check) (d : gmap string pyval)
  : bool * option string :=
  match checks with
  | [] => (true, None)
  | c :: rest =>
      match c d with
      | Some message => (false, Some message)
      | None => first_failure rest d
      end
  end.

Definition passes (d : gmap string pyval) (c : check) : Prop := c d = None.

Definition title_too_long : bool * option string :=
  (false, Some "title cannot exceed 200 characters").
Definition description_too_long : bool * option string :=
  (false, Some "description cannot exceed 2000 characters").

(** The validator's verdict is one of the two [LengthExceeded] errors. *)
Definition length_exceeded (o : outcome (bool * option string)) : Prop :=
  o = Return title_too_long ∨ o = Return description_too_long.

(** The length rule in the specification's words: [LengthExceeded]
    exactly when a trimmed length is over its limit. *)
Definition trimmed_length_rule (fromisoformat_accepts : string → bool)
    (d : gmap string pyval) : Prop :=
  ∀ t ds,
    d !! "title" = Some (PStr t) → d !! "description" = Some (PStr ds) →
    length_exceeded (validate_task fromisoformat_accepts (PDict d))
    ↔ 200 < Str.len (Str.strip t) ∨ 2000 < Str.len (Str.strip ds).

(** A normalized task: the three fields, and [due_date] only if given. *)
Definition normalized (title description priority : string)
    (due_date : option string) : gmap string pyval :=
  let task : gmap string pyval :=
    <["title" := PStr title]>
    (<["description" := PStr description]>
     (<["priority" := PStr priority]> ∅)) in
  match due_date with
  | Some due => <["due_date" := PStr due]> task
  | None => task
  end.

(** The due date the sanitizer keeps: a string that is present and not
    empty. *)
Definition due_date_kept (d : gmap string pyval) : option string :=
  match d !! "due_date" with
  | Some (PStr due) => if Str.is_empty due then None else Some due
  | _ => None
  end.

(** A client is at hand in [w]: there is one already, or creating one
    succeeds. *)
Definition client_ready (boto3_client : outcome ()) (w : world) : bool :=
  sqs_client w || negb (raised boto3_client).

(** The world after an enqueue that ended before the broker was called: one
    identifier drawn, one reading of the clock, nothing sent, no client. *)
Definition after_draw (entries : list log_entry) (w : world) : world :=
  {| logged := logged w ++ entries; sqs_client := sqs_client w;
     sqs_calls := sqs_calls w;
     uuid_draws := S (uuid_draws w); clock_reads := S (clock_reads w) |}.

(** The world after one [send_message] call on behalf of a request: one
    identifier drawn, one reading of the clock, the client in place. *)
Definition after_enqueue (request : send_request) (entries : list log_entry)
    (w : world) : world :=
  {| logged := logged w ++ entries; sqs_client := true;
     sqs_calls := sqs_calls w ++ [request];
     uuid_draws := S (uuid_draws w); clock_reads := S (clock_reads w) |}.

(** A field of a response. *)
Definition response_field (response : pyval) (name : string) : option pyval :=
  match response with
  | PDict r => r !! name
  | _ => None
  end.

Section requests.
Variable json_loads : string → outcome pyval.
Variable json_dumps : pyval → string.
Variable uuid4 : nat → string.
Variable now_utc : nat → datetime.
Variable TASK_QUEUE_URL : string.

(** Lines 201-208: the task data of a request. *)
Definition request_task (event : pyval) : outcome pyval :=
  body ← get event "body" (PStr "{}");
  match body with
  | PStr s => json_loads s
  | _ => Return body
  end.

(** The identifier and the timestamp of the next envelope built in [w]. *)
Definition next_task_id (w : world) : string := uuid4 (uuid_draws w).

Definition next_created_at (w : world) : string :=
  isoformat_naive (now_utc (clock_reads w)) +:+ "Z".

(** An envelope: the task's fields with [task_id] and [created_at]. *)
Definition envelope (task_id created_at : string) (task : gmap string pyval)
  : gmap string pyval :=
  task ∪ <["task_id" := PStr task_id]> (<["created_at" := PStr created_at]> ∅).

(** The [send_message] call for a task enqueued in [w]. *)
Definition enqueue_request (w : world) (task : gmap string pyval) : send_request :=
  {| QueueUrl := TASK_QUEUE_URL;
     MessageBody :=
       json_dumps (PDict (envelope (next_task_id w) (next_created_at w) task));
     MessageGroupId := message_group;
     MessageDeduplicationId := next_task_id w |}.

(** The response to a failure: 500 in either case. *)
Definition failure_response (e : exn) : pyval :=
  match e with
  | ClientError _ =>
      create_response json_dumps 500
        (PDict (<["error" := PStr "Failed to process task"]>
                (<["details" := PStr (exn_str e)]> ∅))) None
  | _ =>
      create_response json_dumps 500
        (PDict (<["error" := PStr "Internal server error"]>
                (<["details" := PStr (exn_str e)]> ∅))) None
  end.

(** The response once the broker has answered the enqueue. *)
Definition enqueue_response (task_id : string) (answer : outcome pyval) : pyval :=
  match answer with
  | Return _ =>
      create_response json_dumps 200
        (PDict (<["task_id" := PStr task_id]>
                (<["message" := PStr "Task created successfully"]>
                 (<["status" := PStr "queued"]> ∅)))) None
  | Raise e => failure_response e
  end.
End requests.

End ApiSpec.

(** * Sample inputs *)

Module Samples.

Definition task (title description priority : string) : gmap string pyval :=
  <["title" := PStr title]>
  (<["description" := PStr description]>
   (<["priority" := PStr priority]> ∅)).

Definition quoted (s : string) : string :=
  String "034" (s +:+ String "034" EmptyString).

(** A serializer in the style of [json.dumps] for the samples: strings
    without escapes, the keys of a dict in the order of the map, floats not
    rendered; [fuel] bounds the nesting. *)
Fixpoint dumps_upto (fuel : nat) (v : pyval) : string :=
  match fuel with
  | O => "..."
  | S k =>
      match v with
      | PNone => "null"
      | PBool b => if b then "true" else "false"
      | PInt z => pretty z
      | PFloat _ => "?"
      | PStr s => quoted s
      | PList l => "[" +:+ Str.join ", " (dumps_upto k <$> l) +:+ "]"
      | PDict d =>
          "{" +:+ Str.join ", "
                    ((λ kv, quoted kv.1 +:+ ": " +:+ dumps_upto k kv.2)
                       <$> map_to_list d)
          +:+ "}"
      end
  end.

Definition dumps : pyval → string := dumps_upto 8.

(** A task as a client sends it, the body of the request, the request. *)
Definition report : gmap string pyval :=
  <["due_date" := PStr "2025-12-31T23:59:59Z"]>
  (task "  Write report " "Quarterly numbers" "high").

Definition request_text : string := dumps (PDict report).

Definition request : pyval := PDict {[ "body" := PStr request_text ]}.

(** An envelope as the broker delivers it, and its text. *)
Definition envelope : gmap string pyval :=
  <["task_id" := PStr "t-1"]>
  (<["title" := PStr "Write report"]>
   (<["description" := PStr "Quarterly numbers"]>
    (<["priority" := PStr "high"]>
     (<["created_at" := PStr "2025-11-13T10:00:00Z"]> ∅)))).

Definition envelope_text : string := dumps (PDict envelope).

(** A decoder that agrees with [json.loads] on the texts used here: it
    decodes the four texts below and rejects the text [not json]. *)
Definition decodings : list (string * pyval) :=
  [("{}", PDict ∅); ("[]", PList []);
   (request_text, PDict report); (envelope_text, PDict envelope)].

Definition loads (s : string) : outcome pyval :=
  match find (λ kv, String.eqb s kv.1) decodings with
  | Some kv => Return kv.2
  | None => Raise (JSONDecodeError "Expecting value: line 1 column 1 (char 0)")
  end.

Definition uuid4 (n : nat) : string :=
  "00000000-0000-4000-8000-" +:+ Str.digits 12 (N.of_nat n).

Definition now_utc (n : nat) : datetime :=
  {| year := 2025; month := 11; day := 13; hour := 10; minute := 0;
     second := N.of_nat n mod 60; microsecond := 0 |}.

(** A client that is created without ado. *)
Definition boto3_client : outcome () := Return ().

(** A broker that accepts every message. *)
Definition send_message (calls : list send_request) (request : send_request)
  : outcome pyval :=
  Return (PDict {[ "MessageId" := PStr (MessageDeduplicationId request) ]}).

Definition queue_url : string :=
  "https://sqs.us-east-1.amazonaws.com/123456789012/tasks.fifo".

Definition record (message_id : string) (body : pyval) : gmap string pyval :=
  <["messageId" := PStr message_id]>
  (<["receiptHandle" := PStr ("receipt-" +:+ message_id)]>
   (<["body" := body]> ∅)).

(** A delivered envelope, a body that is not JSON, a JSON object without
    the required fields, and a body that decodes to a list. *)
Definition records : list (gmap string pyval) :=
  [record "m1" (PStr envelope_text); record "m2" (PStr "not json");
   record "m3" (PStr "{}"); record "m4" (PStr "[]")].

Definition batch : pyval := PDict {[ "Records" := PList (PDict <$> records) ]}.

(** An acceptor that agrees with [datetime.fromisoformat] on the due
    dates used below. *)
Definition accepts (s : string) : bool :=
  String.eqb s "2025-12-31T23:59:59+00:00".

Fixpoint spaces (n : nat) : string :=
  match n with
  | O => EmptyString
  | S k => String " " (spaces k)
  end.

(** One letter followed by 200 spaces. *)
Definition padded_title : string := "A" +:+ spaces 200.

Definition padded_task : gmap string pyval := task padded_title "d" "low".

End Samples.

(** * Further notions *)

Module TaskSpec.
Import Api ApiSpec.

(** The fields of a task the validator and the sanitizer read. *)
Definition task_fields : list string :=
  ["title"; "description"; "priority"; "due_date"].

(** A text field the validator accepts: a string that is not blank and,
    as given, within its limit. *)
Definition text_field (limit : Z) (v : option pyval) : Prop :=
  ∃ s, v = Some (PStr s) ∧ Str.strip s ≠ EmptyString ∧ Str.len s ≤ limit.

(** A due date the validator accepts: none, null, or a string that parses
    once each [Z] is replaced by [+00:00]. *)
Definition due_date_accepted (fromisoformat_accepts : string → bool)
    (v : option pyval) : Prop :=
  match v with
  | None | Some PNone => True
  | Some (PStr s) => fromisoformat_accepts (Str.replace "Z" "+00:00" s) = true
  | Some _ => False
  end.

Definition valid_task (fromisoformat_accepts : string → bool)
    (d : gmap string pyval) : Prop :=
  text_field 200 (d !! "title") ∧ text_field 2000 (d !! "description") ∧
  (∃ p, d !! "priority" = Some (PStr p) ∧ p ∈ valid_priorities) ∧
  due_date_accepted fromisoformat_accepts (d !! "due_date").

(** A task the sanitizer can work on: three strings, and a due date that
    is absent, counts as false, or is a string. *)
Definition sanitizable (d : gmap string pyval) : Prop :=
  (∃ t, d !! "title" = Some (PStr t)) ∧
  (∃ ds, d !! "description" = Some (PStr ds)) ∧
  (∃ p, d !! "priority" = Some (PStr p)) ∧
  (∀ v, d !! "due_date" = Some v → is_str v = true ∨ truthy v = false).

(** A text field of a normalized task: a string that is not empty, has no
    white space around it and is within its limit. *)
Definition trimmed_text (limit : Z) (v : option pyval) : Prop :=
  ∃ s, v = Some (PStr s) ∧ s ≠ EmptyString ∧ Str.strip s = s ∧ Str.len s ≤ limit.

(** A string that does not start with white space. *)
Definition headed (s : string) : Prop :=
  match s with
  | EmptyString => True
  | String c _ => Str.isspace c = false
  end.

(** A string of white space only, at least one character long. *)
Definition blank (s : string) : Prop :=
  s ≠ EmptyString ∧ Str.strip s = EmptyString.

End TaskSpec.

(** Successive invocations of the ingestion handler in one process: each
    starts in the world the one before left. *)
Module Serving.
Import Api ApiSpec.

Section serving.
Variable json_loads : string → outcome pyval.
Variable json_dumps : pyval → string.
Variable fromisoformat_accepts : string → bool.
Variable uuid4 : nat → string.
Variable now_utc : nat → datetime.
Variable boto3_client : outcome ().
Variable send_message : list send_request → send_request → outcome pyval.
Variable TASK_QUEUE_URL : string.

Fixpoint serve (events : list pyval) (w : world) : list (outcome pyval) * world :=
  match events with
  | [] => ([], w)
  | event :: rest =>
      let '(response, w1) :=
        lambda_handler json_loads json_dumps fromisoformat_accepts uuid4
          now_utc boto3_client send_message TASK_QUEUE_URL event w in
      let '(responses, w2) := serve rest w1 in
      (response :: responses, w2)
  end.

(** The request's body gives a task and the validator accepts it. *)
Definition accepted (event : pyval) : bool :=
  match request_task json_loads event with
  | Return task_data =>
      match validate_task fromisoformat_accepts task_data with
      | Return (true, _) => true
      | _ => false
      end
  | Raise _ => false
  end.

(** The task a request submits: its task data, sanitized. *)
Definition submitted (event : pyval) : gmap string pyval :=
  match request_task json_loads event ≫= sanitize_task with
  | Return (PDict task) => task
  | _ => ∅
  end.

(** The message of the [i]-th request accepted from [w] on: the envelope of
    the task that request submits, under the [i]-th identifier drawn and
    the [i]-th reading of the clock from [w] on. *)
Definition message (w : world) (i : nat) (event : pyval) : send_request :=
  {| QueueUrl := TASK_QUEUE_URL;
     MessageBody :=
       json_dumps
         (PDict (envelope (uuid4 (uuid_draws w + i))
                   (isoformat_naive (now_utc (clock_reads w + i)) +:+ "Z")
                   (submitted event)));
     MessageGroupId := "task-processing";
     MessageDeduplicationId := uuid4 (uuid_draws w + i) |}.
End serving.

End Serving.

(** The first and the last line the batch handler logs. *)
Module BatchLog.

Definition opening (size : nat) : log_entry :=
  Log INFO "Processing batch of {} messages" [PInt (Z.of_nat size)].

Definition closing (failures : list pyval) : log_entry :=
  match failures with
  | [] => Log INFO "All messages in batch processed successfully" []
  | _ => Log WARNING "Batch processing completed with {} failures"
             [PInt (Z.of_nat (length failures))]
  end.

End BatchLog.

(** What the broker delivers for the sample request. *)
Module Delivered.

(** The envelope the handler builds for [Samples.request] in the initial
    world of the sample environment, and its text. *)
Definition envelope : gmap string pyval :=
  ApiSpec.envelope "00000000-0000-4000-8000-000000000000" "2025-11-13T10:00:00Z"
    (ApiSpec.normalized "Write report" "Quarterly numbers" "high"
       (Some "2025-12-31T23:59:59Z")).

Definition envelope_text : string := Samples.dumps (PDict envelope).

(** A decoder that also decodes that text. *)
Definition loads (s : string) : outcome pyval :=
  if String.eqb s envelope_text then Return (PDict envelope) else Samples.loads s.

End Delivered.

(** * Properties *)

(** ** The monad *)

Lemma append_log_nil w : append_log [] w = w.
Proof. destruct w; unfold append_log; simpl. by rewrite app_nil_r. Qed.

Lemma append_log_app es1 es2 w :
  append_log es2 (append_log es1 w) = append_log (es1 ++ es2) w.
Proof. unfold append_log; simpl. by rewrite app_assoc. Qed.

Lemma logs_only_result {A} P (m : M A) :
  logs_only P m →
  ∃ entries, Forall P entries ∧ ∀ w, m w = (result_of m, append_log entries w).
Proof.
  intros (o & es & HP & H). exists es. split; [done|]. intros w.
  unfold result_of. by rewrite !H.
Qed.

Lemma logs_only_ret {A} P (a : A) : logs_only P (mret a).
Proof. exists (Return a), []. split; [done|]. intros w. by rewrite append_log_nil. Qed.

Lemma logs_only_lift {A} P (o : outcome A) : logs_only P (lift o).
Proof. exists o, []. split; [done|]. intros w. by rewrite append_log_nil. Qed.

Lemma logs_only_raise {A} P e : logs_only P (@raise A e).
Proof. exists (Raise e), []. split; [done|]. intros w. by rewrite append_log_nil. Qed.

Lemma logs_only_log (P : log_entry → Prop) lvl text args :
  P (Log lvl text args) → logs_only P (log lvl text args).
Proof. intros HP. exists (Return ()), [Log lvl text args]. split; [by constructor|done]. Qed.

Lemma logs_only_bind {A B} P (m : M A) (f : A → M B) :
  logs_only P m → (∀ a, logs_only P (f a)) → logs_only P (m ≫= f).
Proof.
  intros (o & es & HP & H) Hf. destruct o as [a|e].
  - destruct (Hf a) as (o' & es' & HP' & H').
    exists o', (es ++ es'). split; [by apply Forall_app|]. intros w.
    unfold mbind, M_bind. by rewrite H, H', append_log_app.
  - exists (Raise e), es. split; [done|]. intros w.
    unfold mbind, M_bind. by rewrite H.
Qed.

Lemma logs_only_try {A} P (m : M A) (h : exn → M A) :
  logs_only P m → (∀ e, logs_only P (h e)) → logs_only P (try_except m h).
Proof.
  intros (o & es & HP & H) Hh. destruct o as [a|e].
  - exists (Return a), es. split; [done|]. intros w.
    unfold try_except. by rewrite H.
  - destruct (Hh e) as (o' & es' & HP' & H').
    exists o', (es ++ es'). split; [by apply Forall_app|]. intros w.
    unfold try_except. by rewrite H, H', append_log_app.
Qed.

Create HintDb logging.
#[local] Hint Resolve logs_only_ret logs_only_lift logs_only_raise : logging.
#[local] Hint Extern 1 (logs_only _ (log _ _ _)) =>
  apply logs_only_log; discriminate : logging.

(** Walk through a computation built from binds, [try_except] and the
    primitives, case by case in the exception handlers. *)
Ltac logging :=
  repeat first
    [ solve [auto with logging]
    | apply logs_only_bind; [|intros ?]
    | apply logs_only_try; [|intros []] ].

(** ** The processor *)

Section processor.
Import QueueProcessor QueueSpec.

Lemma check_required_logs_only fields task_data :
  logs_only quiet (check_required fields task_data).
Proof.
  induction fields as [|field rest IH]; simpl; [logging|].
  apply logs_only_bind; [logging|]. intros []; simpl; [done|logging].
Qed.

#[local] Hint Resolve check_required_logs_only : logging.

Lemma process_task_logs_only task_data :
  logs_only quiet (process_task task_data).
Proof. unfold process_task. logging. Qed.

Lemma process_task_run task_data :
  ∃ entries, Forall quiet entries ∧
    ∀ w, process_task task_data w
         = (result_of (process_task task_data), append_log entries w).
Proof. apply logs_only_result, process_task_logs_only. Qed.

Lemma process_task_dict d :
  result_of (process_task (PDict d)) =
    match missing_fields d with
    | [] => Return (completed (default PNone (d !! "task_id")))
    | f :: _ => Raise (ProcessingError ("Missing required field: " +:+ f))
    end.
Proof.
  unfold result_of, process_task, missing_fields, required_fields.
  unfold mbind, M_bind, lift, try_except, raise, mret, M_ret, log, getitem; simpl.
  rewrite !filter_cons, filter_nil.
  destruct (d !! "task_id"), (d !! "title"), (d !! "description"),
    (d !! "priority"), (d !! "created_at"); reflexivity.
Qed.

Lemma missing_fields_nil d :
  missing_fields d = [] ↔ Forall (λ f, is_Some (d !! f)) required_fields.
Proof.
  unfold missing_fields.
  induction required_fields as [|f fs IH]; [by split|].
  rewrite filter_cons, Forall_cons. destruct (d !! f) eqn:E.
  - rewrite decide_False by done. rewrite IH. split; [by split; eauto|by intros [_ ?]].
  - rewrite decide_True by done. split; [done|]. intros [[? ?] _]. done.
Qed.

End processor.

(** C4.  [process_task] on a decoded dict raises [ProcessingError] naming
    the first required field that is absent, and when none of [task_id],
    [title], [description], [priority], [created_at] is absent it returns
    the processing result: it succeeds exactly when all five are present. *)
Theorem process_task_required_fields (d : gmap string pyval) (w : world) :
  (QueueProcessor.process_task (PDict d) w).1 =
    match QueueSpec.missing_fields d with
    | [] => Return (QueueProcessor.completed (default PNone (d !! "task_id")))
    | f :: _ => Raise (ProcessingError ("Missing required field: " +:+ f))
    end
  ∧ (raised (QueueProcessor.process_task (PDict d) w).1 = false
     ↔ Forall (λ f, is_Some (d !! f)) QueueProcessor.required_fields).
Proof.
  destruct (process_task_run (PDict d)) as (es & _ & Hrun).
  rewrite Hrun; simpl. rewrite process_task_dict. split; [done|].
  rewrite <- missing_fields_nil. by destruct (QueueSpec.missing_fields d).
Qed.

(** A value that is not a dict has no [get]: line 37 raises before the
    fields are looked at. *)
Lemma process_task_not_dict (v : pyval) (w : world) :
  (∀ d, v ≠ PDict d) →
  QueueProcessor.process_task v w = (Raise (no_attribute v "get"), w).
Proof. intros Hv. destruct v; try done. by destruct (Hv d). Qed.

(** C5.  What [process_task] returns or raises is determined by its
    argument alone: it is the same in any two worlds, hence the same when
    the call is repeated on the world the first call left; and all a call
    does to the world is to append log entries, the same ones each time. *)
Theorem process_task_idempotent (task_data : pyval) (w1 w2 : world) :
  (QueueProcessor.process_task task_data w1).1
    = (QueueProcessor.process_task task_data w2).1
  ∧ (QueueProcessor.process_task task_data
       (QueueProcessor.process_task task_data w1).2).1
    = (QueueProcessor.process_task task_data w1).1
  ∧ ∃ entries, ∀ w,
      (QueueProcessor.process_task task_data w).2 = append_log entries w.
Proof.
  destruct (process_task_run task_data) as (es & _ & Hrun).
  rewrite !Hrun; simpl. split_and!; try done.
  exists es. intros w. by rewrite Hrun.
Qed.

(** ** The batch consumer *)

Lemma run_bind {A B} (m : M A) (f : A → M B) (w : world) :
  (m ≫= f) w = match m w with
               | (Return a, w') => f a w'
               | (Raise e, w') => (Raise e, w')
               end.
Proof. done. Qed.

Lemma run_try {A} (m : M A) (h : exn → M A) (w : world) :
  try_except m h w = match m w with
                     | (Return a, w') => (Return a, w')
                     | (Raise e, w') => h e w'
                     end.
Proof. done. Qed.

Lemma run_log lvl text args w :
  log lvl text args w = (Return (), append_log [Log lvl text args] w).
Proof. done. Qed.

(** Run a computation of [M] one step at a time. *)
Ltac run :=
  repeat first
    [ rewrite run_bind | rewrite run_try | rewrite run_log
    | progress unfold lift, raise, mret, M_ret
    | progress simpl ].

Section consumer.
Import QueueProcessor QueueSpec.
Variable json_loads : string → outcome pyval.

(** One turn of the loop on a record that is a dict: the attempt is
    announced, and the record's identifier is appended exactly when
    decoding or processing threw. *)
Lemma process_record_dict record failures :
  ∃ entries, Forall quiet entries ∧ ∀ w,
    process_record json_loads (PDict record) failures w =
      (Return (if item_fails json_loads record
               then failures ++ [failure_entry (message_id record)]
               else failures),
       append_log (announcement record :: entries) w).
Proof.
  unfold item_fails, item_outcome, process_record.
  destruct (parse_body json_loads (PDict record)) as [task_data|e] eqn:Hparse.
  - destruct (process_task_run task_data) as (es & Hes & Hrun).
    destruct (result_of (process_task task_data)) as [result|e] eqn:Hres;
      [|destruct e];
      (eexists; split; last first;
       [intros w; run; rewrite Hrun; run;
        rewrite Hres, !append_log_app; simpl; reflexivity
       |apply Forall_app; split; [done|by repeat constructor]]).
  - destruct e;
      (eexists; split; last first;
       [intros w; run; rewrite !append_log_app; simpl; reflexivity
       |by repeat constructor]).
Qed.

Lemma attempted_append entries w :
  attempted (append_log entries w) = attempted w ++ omap announced entries.
Proof. unfold attempted; simpl. apply omap_app. Qed.

Lemma omap_announced_quiet entries :
  Forall quiet entries → omap announced entries = [].
Proof.
  induction 1 as [|e es He _ IH]; [done|]. simpl.
  unfold announced at 1. by rewrite decide_False.
Qed.

(** The loop over records that are dicts. *)
Lemma process_records_dicts records : ∀ failures w,
  ∃ entries, omap announced entries = message_id <$> records ∧
    process_records json_loads (PDict <$> records) failures w =
      (Return (failures ++ failed_identifiers json_loads records),
       append_log entries w).
Proof.
  induction records as [|r rs IH]; intros failures w.
  - exists []. split; [done|]. simpl. unfold mret, M_ret.
    by rewrite app_nil_r, append_log_nil.
  - destruct (process_record_dict r failures) as (es & Hes & Hrun).
    destruct (IH (if item_fails json_loads r
                  then failures ++ [failure_entry (message_id r)]
                  else failures)
                 (append_log (announcement r :: es) w))
      as (es' & Hes' & Hrun').
    exists ((announcement r :: es) ++ es'). split.
    + rewrite omap_app, Hes'. simpl.
      by rewrite omap_announced_quiet.
    + rewrite fmap_cons. simpl. rewrite run_bind, Hrun, Hrun'.
      rewrite append_log_app. f_equal. f_equal.
      unfold failed_identifiers. rewrite filter_cons.
      destruct (item_fails json_loads r); simpl; [|done].
      by rewrite <- app_assoc.
Qed.

Lemma lambda_handler_records ev records w :
  ev !! "Records" = Some (PList (PDict <$> records)) →
  ∃ entries, omap announced entries = message_id <$> records ∧
    lambda_handler json_loads (PDict ev) w =
      (Return (batch_result (failed_identifiers json_loads records)),
       append_log entries w).
Proof.
  intros Hrecords. unfold lambda_handler.
  destruct (process_records_dicts records []
              (append_log [Log INFO "Processing batch of {} messages"
                             [PInt (Z.of_nat (length (PDict <$> records)))]] w))
    as (es & Hes & Hrun).
  simpl in Hrun.
  set (fs := failed_identifiers json_loads records) in *.
  destruct fs;
    (eexists; split; last first;
     [run; rewrite Hrecords; run; rewrite Hrun; run;
      rewrite !append_log_app; reflexivity
     |rewrite !omap_app; simpl; rewrite Hes; by rewrite app_nil_r]).
Qed.

Lemma lambda_handler_no_records ev w :
  ev !! "Records" = None →
  ∃ entries, omap announced entries = [] ∧
    lambda_handler json_loads (PDict ev) w =
      (Return (batch_result []), append_log entries w).
Proof.
  intros Hrecords. unfold lambda_handler.
  eexists. split; last first.
  - run. rewrite Hrecords. run. rewrite !append_log_app. reflexivity.
  - done.
Qed.

Lemma failure_entry_inj : Inj (=) (=) failure_entry.
Proof.
  intros a b Hab. unfold failure_entry in Hab.
  assert (({[ "itemIdentifier" := a ]} : gmap string pyval) !! "itemIdentifier"
          = ({[ "itemIdentifier" := b ]} : gmap string pyval) !! "itemIdentifier")
    as Hlook by congruence.
  rewrite !lookup_singleton_eq in Hlook. congruence.
Qed.

Lemma elem_of_failed_identifiers records id :
  failure_entry id ∈ failed_identifiers json_loads records ↔
  ∃ r, r ∈ records ∧ message_id r = id ∧ item_fails json_loads r = true.
Proof.
  unfold failed_identifiers. rewrite list_elem_of_fmap. split.
  - intros (r & Heq & Hr). apply list_elem_of_filter in Hr as [Hf Hr].
    exists r. split; [done|]. split; [by apply failure_entry_inj in Heq|].
    by apply Is_true_true.
  - intros (r & Hr & <- & Hf). exists r. split; [done|].
    apply list_elem_of_filter. split; [by apply Is_true_true|done].
Qed.

End consumer.

(** C1.  For a batch of records, the handler returns the identifiers of
    exactly the records whose decoding or processing threw, in the order
    of the batch; every record is attempted, in order, whatever happened to
    the records before it; records are judged one by one; and a batch of no
    records yields no identifier. *)
Theorem lambda_handler_reports_failures (json_loads : string → outcome pyval)
    (ev : gmap string pyval) (records : list (gmap string pyval)) (w : world) :
  (∃ w',
     QueueProcessor.lambda_handler json_loads
       (PDict (<["Records" := PList (PDict <$> records)]> ev)) w
     = (Return (QueueSpec.batch_result
                  (QueueSpec.failed_identifiers json_loads records)), w')
     ∧ QueueSpec.attempted w'
       = QueueSpec.attempted w ++ (QueueSpec.message_id <$> records))
  ∧ (∀ id,
       QueueProcessor.failure_entry id
         ∈ QueueSpec.failed_identifiers json_loads records
       ↔ ∃ r, r ∈ records ∧ QueueSpec.message_id r = id
              ∧ QueueSpec.item_fails json_loads r = true)
  ∧ (∀ before after,
       QueueSpec.failed_identifiers json_loads (before ++ after)
       = QueueSpec.failed_identifiers json_loads before
         ++ QueueSpec.failed_identifiers json_loads after)
  ∧ (∃ w',
       QueueProcessor.lambda_handler json_loads
         (PDict (<["Records" := PList []]> ev)) w
       = (Return (QueueSpec.batch_result []), w')).
Proof.
  split; [|split; [|split]].
  - destruct (lambda_handler_records json_loads
                (<["Records" := PList (PDict <$> records)]> ev) records w)
      as (es & Hes & Hrun); [apply lookup_insert_eq|].
    eexists. split; [exact Hrun|]. by rewrite attempted_append, Hes.
  - apply elem_of_failed_identifiers.
  - intros before after. unfold QueueSpec.failed_identifiers.
    by rewrite filter_app, fmap_app.
  - destruct (lambda_handler_records json_loads
                (<["Records" := PList []]> ev) [] w)
      as (es & Hes & Hrun); [apply lookup_insert_eq|].
    eexists. exact Hrun.
Qed.

(** C10.  On an event whose records are dicts the handler raises nothing:
    whatever a record's decoding or processing raises is turned into that
    record's entry, and the handler returns the dict of these entries. *)
Theorem lambda_handler_total (json_loads : string → outcome pyval)
    (event : pyval) (w : world) :
  QueueSpec.well_formed_batch event →
  ∃ records w',
    QueueProcessor.lambda_handler json_loads event w
    = (Return (QueueSpec.batch_result
                 (QueueSpec.failed_identifiers json_loads records)), w').
Proof.
  intros (ev & -> & [Hnone|(records & Hrecords)]).
  - destruct (lambda_handler_no_records json_loads ev w Hnone) as (es & _ & Hrun).
    by exists [], (append_log es w).
  - destruct (lambda_handler_records json_loads ev records w Hrecords)
      as (es & _ & Hrun).
    eauto.
Qed.

Lemma lambda_handler_total_witness :
  ∃ records w',
    QueueProcessor.lambda_handler Samples.loads Samples.batch initial_world
    = (Return (QueueSpec.batch_result
                 (QueueSpec.failed_identifiers Samples.loads records)), w').
Proof.
  apply (lambda_handler_total Samples.loads Samples.batch initial_world).
  exists {[ "Records" := PList (PDict <$> Samples.records) ]}.
  split; [reflexivity|]. right. exists Samples.records. reflexivity.
Defined.

(** On the sample batch: the second, third and fourth records fail. *)
Example lambda_handler_sample_batch :
  (QueueProcessor.lambda_handler Samples.loads Samples.batch initial_world).1
  = Return (QueueSpec.batch_result
              [QueueProcessor.failure_entry (PStr "m2");
               QueueProcessor.failure_entry (PStr "m3");
               QueueProcessor.failure_entry (PStr "m4")]).
Proof. vm_compute. reflexivity. Qed.

(** ** Strings *)

Lemma lstrip_length s : (String.length (Str.lstrip s) ≤ String.length s)%nat.
Proof.
  induction s as [|c s IH]; simpl; [done|].
  destruct (Str.isspace c); simpl; lia.
Qed.

Lemma rstrip_length s : (String.length (Str.rstrip s) ≤ String.length s)%nat.
Proof.
  induction s as [|c s IH]; simpl; [done|].
  destruct (Str.isspace c && Str.is_empty (Str.rstrip s)); simpl; lia.
Qed.

Lemma strip_len s : Str.len (Str.strip s) ≤ Str.len s.
Proof.
  unfold Str.len, Str.strip.
  pose proof (rstrip_length (Str.lstrip s)). pose proof (lstrip_length s). lia.
Qed.

Lemma is_empty_false s : Str.is_empty s = false ↔ s ≠ EmptyString.
Proof. by destruct s. Qed.

Lemma len_pos_not_empty s : 0 < Str.len s → s ≠ EmptyString.
Proof. by destruct s. Qed.

Lemma free_of_app c s1 s2 :
  free_of c s1 → free_of c s2 → free_of c (s1 +:+ s2).
Proof. induction s1 as [|a s1 IH]; simpl; [done|]. intros [? ?] ?. auto. Qed.

Lemma digit_not_plus n : Str.digit n ≠ "+"%char.
Proof.
  unfold Str.digit. intros Heq.
  apply (f_equal N_of_ascii) in Heq.
  assert (n mod 10 < 10)%N as Hlt by (by apply N.mod_lt).
  generalize dependent (n mod 10)%N. intros k Heq Hlt.
  rewrite N_ascii_embedding in Heq by lia. simpl in Heq. lia.
Qed.

Lemma digits_free_of_plus width n : free_of "+" (Str.digits width n).
Proof.
  revert n. induction width as [|k IH]; intros n; simpl; [done|].
  apply free_of_app; [apply IH|]. split; [apply digit_not_plus|done].
Qed.

Lemma isoformat_naive_free_of_plus t : free_of "+" (isoformat_naive t).
Proof.
  unfold isoformat_naive.
  repeat first
    [ apply digits_free_of_plus
    | apply free_of_app
    | by (simpl; repeat split)
    | destruct (microsecond t =? 0)%N ].
Qed.

Lemma prefix_other_head a b old s :
  a ≠ b → String.prefix (String b old) (String a s) = false.
Proof. intros Hab. simpl. destruct (ascii_dec b a); congruence. Qed.

Lemma replace_from_keep old new a s :
  String.prefix old (String a s) = false →
  Str.replace_from old new 0 (String a s)
  = String a (Str.replace_from old new 0 s).
Proof. intros Hprefix. simpl in *. by rewrite Hprefix. Qed.

(** Replacing the offset of a string that has no other [+]. *)
Lemma replace_offset s :
  free_of "+" s → Str.replace "+00:00" "Z" (s +:+ "+00:00") = s +:+ "Z".
Proof.
  unfold Str.replace. induction s as [|a s IH]; [done|].
  intros [Ha Hs].
  change (String a s +:+ "+00:00") with (String a (s +:+ "+00:00")).
  rewrite replace_from_keep by (by apply prefix_other_head).
  by rewrite IH.
Qed.

(** The [created_at] of an envelope is the reading of the clock in ISO
    format with the UTC designator [Z]. *)
Lemma created_at_utc t :
  Str.replace "+00:00" "Z" (isoformat t) = isoformat_naive t +:+ "Z".
Proof. apply replace_offset, isoformat_naive_free_of_plus. Qed.

(** ** The validator *)

Section validator.
Import Api ApiSpec.
Variable fromisoformat_accepts : string → bool.

Lemma validate_task_checks d :
  validate_task fromisoformat_accepts (PDict d)
  = Return (first_failure (validation_checks fromisoformat_accepts) d).
Proof.
  unfold validate_task, validation_checks, first_failure, present,
    string_typed, not_blank, within, priority_enum, due_date_string,
    due_date_format, field; simpl.
  destruct (d !! "title") as [title|]; simpl; [|reflexivity].
  destruct (d !! "description") as [description|]; simpl; [|reflexivity].
  destruct (d !! "priority") as [priority|]; simpl; [|reflexivity].
  destruct title as [| | | |t| |]; simpl; try reflexivity.
  destruct (Str.is_empty (Str.strip t)); simpl; [reflexivity|].
  destruct (200 <? Str.len t); simpl; [reflexivity|].
  destruct description as [| | | |ds| |]; simpl; try reflexivity.
  destruct (Str.is_empty (Str.strip ds)); simpl; [reflexivity|].
  destruct (2000 <? Str.len ds); simpl; [reflexivity|].
  destruct (eq_str priority "low" || (eq_str priority "medium"
            || (eq_str priority "high" || false))); simpl; [|reflexivity].
  destruct (d !! "due_date") as [[| | | |dd| |]|]; simpl; try reflexivity.
  by destruct (fromisoformat_accepts _).
Qed.
Lemma first_failure_at before c after d message :
  Forall (passes d) before → c d = Some message →
  first_failure (before ++ c :: after) d = (false, Some message).
Proof.
  intros Hbefore Hc. induction Hbefore as [|b bs Hb _ IH]; simpl.
  - by rewrite Hc.
  - by rewrite Hb.
Qed.

Lemma first_failure_none checks d :
  Forall (passes d) checks → first_failure checks d = (true, None).
Proof. induction 1 as [|c cs Hc _ IH]; simpl; [done|by rewrite Hc]. Qed.

End validator.

(** C6.  On a dict the validator's verdict is that of its checks run in the
    order title presence, description presence, priority presence, title
    type, blank, length, description type, blank, length, priority enum,
    due date type and format, up to the first that fails: the checks after
    it have no influence. *)
Theorem validate_task_first_failure (fromisoformat_accepts : string → bool)
    (d : gmap string pyval) :
  Api.validate_task fromisoformat_accepts (PDict d)
  = Return (ApiSpec.first_failure
              (ApiSpec.validation_checks fromisoformat_accepts) d)
  ∧ (∀ before c after message,
       ApiSpec.validation_checks fromisoformat_accepts = before ++ c :: after →
       Forall (ApiSpec.passes d) before → c d = Some message →
       Api.validate_task fromisoformat_accepts (PDict d)
       = Return (false, Some message))
  ∧ (Forall (ApiSpec.passes d) (ApiSpec.validation_checks fromisoformat_accepts) →
     Api.validate_task fromisoformat_accepts (PDict d) = Return (true, None)).
Proof.
  rewrite validate_task_checks. split; [done|]. split.
  - intros before c after message Hsplit Hbefore Hc.
    rewrite Hsplit. f_equal. by apply first_failure_at.
  - intros Hall. by rewrite first_failure_none.
Qed.

Lemma validate_task_first_failure_witness :
  Api.validate_task Samples.accepts (PDict (Samples.task "   " "d" "urgent"))
  = Return (false, Some "title cannot be empty").
Proof.
  apply (proj1 (proj2 (validate_task_first_failure Samples.accepts
                         (Samples.task "   " "d" "urgent")))
           [ApiSpec.present "title"; ApiSpec.present "description";
            ApiSpec.present "priority"; ApiSpec.string_typed "title"]
           (ApiSpec.not_blank "title")
           [ApiSpec.within "title" 200 "200";
            ApiSpec.string_typed "description"; ApiSpec.not_blank "description";
            ApiSpec.within "description" 2000 "2000"; ApiSpec.priority_enum;
            ApiSpec.due_date_string; ApiSpec.due_date_format Samples.accepts]).
  - reflexivity.
  - repeat constructor.
  - reflexivity.
Defined.

(** C2, as the specification words it, fails: a title of one letter
    followed by 200 spaces is rejected with [LengthExceeded] although its
    trimmed length is 1. *)
Lemma trimmed_length_rule_fails :
  ¬ ApiSpec.trimmed_length_rule Samples.accepts Samples.padded_task.
Proof.
  intros Hrule.
  destruct (Hrule Samples.padded_title "d" eq_refl eq_refl) as [Hnecessary _].
  destruct Hnecessary as [Hlong|Hlong].
  - left. vm_compute. reflexivity.
  - vm_compute in Hlong. discriminate.
  - vm_compute in Hlong. discriminate.
Qed.

(** C2, amended.  For a dict with the three required fields whose title and
    description are strings, the validator fails with [LengthExceeded]
    exactly when the title is not blank and either the title as given has
    more than 200 characters, or the description is not blank and as given
    has more than 2000 characters.  White space around a value counts
    towards its limit; a trimmed length over the limit is still rejected. *)
Theorem validate_task_length_exceeded (fromisoformat_accepts : string → bool)
    (d : gmap string pyval) (t ds : string) :
  d !! "title" = Some (PStr t) → d !! "description" = Some (PStr ds) →
  is_Some (d !! "priority") →
  (ApiSpec.length_exceeded (Api.validate_task fromisoformat_accepts (PDict d))
   ↔ Str.strip t ≠ EmptyString
     ∧ (200 < Str.len t ∨ Str.strip ds ≠ EmptyString ∧ 2000 < Str.len ds))
  ∧ (200 < Str.len (Str.strip t) →
     ApiSpec.length_exceeded (Api.validate_task fromisoformat_accepts (PDict d)))
  ∧ (Str.strip t ≠ EmptyString → 2000 < Str.len (Str.strip ds) →
     ApiSpec.length_exceeded (Api.validate_task fromisoformat_accepts (PDict d))).
Proof.
  intros Ht Hds [p Hp].
  assert (ApiSpec.length_exceeded
            (Api.validate_task fromisoformat_accepts (PDict d))
          ↔ Str.strip t ≠ EmptyString
            ∧ (200 < Str.len t ∨ Str.strip ds ≠ EmptyString ∧ 2000 < Str.len ds))
    as Hiff.
  { unfold ApiSpec.length_exceeded, ApiSpec.title_too_long,
      ApiSpec.description_too_long, Api.validate_task; simpl.
    rewrite Ht, Hds, Hp; simpl.
    destruct (Str.is_empty (Str.strip t)) eqn:Et; simpl.
    { destruct (Str.strip t); [|done]. split; [by intros [|]|by intros [? _]]. }
    apply is_empty_false in Et.
    destruct (Z.ltb_spec 200 (Str.len t)); simpl.
    { split; [by auto|by left]. }
    destruct (Str.is_empty (Str.strip ds)) eqn:Eds; simpl.
    { destruct (Str.strip ds); [|done].
      split; [by intros [|]|]. intros [_ [|[]]]; [lia|done]. }
    apply is_empty_false in Eds.
    destruct (Z.ltb_spec 2000 (Str.len ds)); simpl.
    { split; [by auto|by right]. }
    split; [|intros [_ [|[]]]; lia].
    destruct (eq_str p "low" || (eq_str p "medium" || (eq_str p "high" || false)));
      simpl; [|by intros [|]].
    destruct (d !! "due_date") as [[| | | |dd| |]|]; simpl; try by intros [|].
    destruct (fromisoformat_accepts _); simpl; by intros [|]. }
  split; [exact Hiff|]. split.
  - intros Hlong. apply Hiff. pose proof (strip_len t).
    split; [apply len_pos_not_empty|left]; lia.
  - intros Hblank Hlong. apply Hiff. pose proof (strip_len ds).
    split; [done|]. right. split; [apply len_pos_not_empty|]; lia.
Qed.

Lemma validate_task_length_exceeded_witness :
  ApiSpec.length_exceeded
    (Api.validate_task Samples.accepts (PDict Samples.padded_task)).
Proof.
  apply (proj1 (validate_task_length_exceeded Samples.accepts
                  Samples.padded_task Samples.padded_title "d"
                  eq_refl eq_refl (ex_intro _ (PStr "low") eq_refl))).
  split; [vm_compute; discriminate|left; vm_compute; reflexivity].
Defined.

(** ** The sanitizer *)

Lemma sanitize_task_strings (d : gmap string pyval) (t ds p : string) :
  d !! "title" = Some (PStr t) → d !! "description" = Some (PStr ds) →
  d !! "priority" = Some (PStr p) →
  (∀ v, d !! "due_date" = Some v → is_str v = true ∨ truthy v = false) →
  Api.sanitize_task (PDict d)
  = Return (PDict (ApiSpec.normalized (Str.strip t) (Str.strip ds)
                     (Str.lower (Str.strip p))
                     (Str.strip <$> ApiSpec.due_date_kept d))).
Proof.
  intros Ht Hds Hp Hdue.
  unfold Api.sanitize_task, Api.due_date_given, ApiSpec.due_date_kept; simpl.
  rewrite Ht, Hds, Hp; simpl.
  destruct (d !! "due_date") as [v|] eqn:Ev; simpl; [|done].
  destruct (Hdue v eq_refl) as [Hstr|Hfalse].
  - destruct v as [| | | |due| |]; try done. simpl.
    by destruct due.
  - rewrite Hfalse; simpl. destruct v as [| | | |due| |]; try done.
    by destruct due.
Qed.

(** C7.  For a task whose title, description and priority are strings and
    whose due date, if any, is a string (or a value that counts as false,
    such as null), the sanitizer returns the title and description trimmed,
    the priority trimmed and lower-cased, and the due date trimmed when it
    is present and not empty; otherwise the result has no [due_date]. *)
Theorem sanitize_task_normalizes (d : gmap string pyval) (t ds p : string) :
  d !! "title" = Some (PStr t) → d !! "description" = Some (PStr ds) →
  d !! "priority" = Some (PStr p) →
  (∀ v, d !! "due_date" = Some v → is_str v = true ∨ truthy v = false) →
  Api.sanitize_task (PDict d)
  = Return (PDict (ApiSpec.normalized (Str.strip t) (Str.strip ds)
                     (Str.lower (Str.strip p))
                     (Str.strip <$> ApiSpec.due_date_kept d)))
  ∧ (ApiSpec.due_date_kept d = None →
     ∀ result, Api.sanitize_task (PDict d) = Return (PDict result) →
               result !! "due_date" = None).
Proof.
  intros Ht Hds Hp Hdue.
  pose proof (sanitize_task_strings d t ds p Ht Hds Hp Hdue) as Heq.
  split; [done|]. intros Hnone result. rewrite Heq, Hnone. by intros [= <-].
Qed.

Lemma sanitize_task_normalizes_witness :
  Api.sanitize_task (PDict (Samples.task "  A  " "  B  " "HIGH"))
  = Return (PDict (Samples.task "A" "B" "high")).
Proof.
  refine (proj1 (sanitize_task_normalizes (Samples.task "  A  " "  B  " "HIGH")
                   "  A  " "  B  " "HIGH" eq_refl eq_refl eq_refl _)).
  intros v Hdue. vm_compute in Hdue. discriminate.
Defined.

(** ** The ingestion handler *)

#[local] Arguments Str.replace : simpl never.
#[local] Arguments isoformat : simpl never.


Lemma client_ready_false (boto3_client : outcome ()) (w : world) :
  ApiSpec.client_ready boto3_client w = false ↔
  sqs_client w = false ∧ ∃ e, boto3_client = Raise e.
Proof.
  unfold ApiSpec.client_ready. destruct (sqs_client w); simpl.
  - split; [done|]. by intros [? _].
  - destruct boto3_client as [[]|e]; simpl.
    + split; [done|]. by intros (_ & e & ?).
    + split; [eauto|done].
Qed.

Section ingestion.
Import Api ApiSpec.
Variable json_loads : string → outcome pyval.
Variable json_dumps : pyval → string.
Variable fromisoformat_accepts : string → bool.
Variable uuid4 : nat → string.
Variable now_utc : nat → datetime.
Variable boto3_client : outcome ().
Variable send_message : list send_request → send_request → outcome pyval.
Variable TASK_QUEUE_URL : string.

Let enqueue_request := enqueue_request json_dumps uuid4 now_utc TASK_QUEUE_URL.
Let send_to_queue :=
  send_to_queue json_dumps uuid4 now_utc
  boto3_client send_message TASK_QUEUE_URL.

(** One enqueue with a client at hand: the request is submitted once,
    whatever the broker answers. *)
Lemma send_to_queue_dict (task : gmap string pyval) (w : world) :
  client_ready boto3_client w = true →
  ∃ entries,
    send_to_queue (PDict task) w =
      (match send_message (sqs_calls w) (enqueue_request w task) with
       | Return _ => Return (next_task_id uuid4 w)
       | Raise e => Raise e
       end,
       after_enqueue (enqueue_request w task) entries w).
Proof.
  intros Hready.
  unfold send_to_queue, Api.send_to_queue, Api.sqs_send_message, Api.draw_uuid,
    Api.read_clock, Api.get_sqs_client, enqueue_request, ApiSpec.enqueue_request,
    envelope, next_task_id, next_created_at, after_enqueue.
  unfold client_ready in Hready.
  run. rewrite created_at_utc.
  destruct (sqs_client w) eqn:Hclient; simpl in *.
  - run. destruct (send_message _ _) as [response|e]; [|destruct e]; run;
      first [eexists; reflexivity | exists []; by rewrite app_nil_r].
  - destruct boto3_client as [[]|e0]; [|done]. run.
    destruct (send_message _ _) as [response|e]; [|destruct e]; run;
      first [eexists; reflexivity | exists []; by rewrite app_nil_r].
Qed.

(** One enqueue without a client, when creating one raises: the exception
    leaves [send_to_queue] and the broker is not called. *)
Lemma send_to_queue_no_client (task : gmap string pyval) (e : exn) (w : world) :
  sqs_client w = false → boto3_client = Raise e →
  ∃ entries, send_to_queue (PDict task) w = (Raise e, after_draw entries w).
Proof.
  intros Hclient Hraise.
  unfold send_to_queue, Api.send_to_queue, Api.sqs_send_message, Api.draw_uuid,
    Api.read_clock, Api.get_sqs_client, after_draw.
  run. rewrite Hclient, Hraise. simpl.
  destruct e; run;
    first [eexists; reflexivity | exists []; by rewrite app_nil_r].
Qed.
(** What the validator has checked when it accepts. *)
Lemma validate_task_accepts (task_data : pyval) (message : option string) :
  validate_task fromisoformat_accepts task_data = Return (true, message) →
  message = None ∧
  ∃ d t ds p,
    task_data = PDict d ∧ d !! "title" = Some (PStr t) ∧
    d !! "description" = Some (PStr ds) ∧ d !! "priority" = Some (PStr p) ∧
    (∀ v, d !! "due_date" = Some v → is_str v = true ∨ truthy v = false).
Proof.
  intros H. unfold validate_task in H.
  destruct task_data as [| | | |s|l|d]; simpl in H; try discriminate.
  - repeat (destruct (Str.contains _ s); simpl in H; try discriminate).
  - repeat (destruct (existsb _ l); simpl in H; try discriminate).
  - destruct (d !! "title") as [title|] eqn:Ht; simpl in H; [|discriminate].
    destruct (d !! "description") as [description|] eqn:Hds; simpl in H;
      [|discriminate].
    destruct (d !! "priority") as [priority|] eqn:Hp; simpl in H; [|discriminate].
    destruct title as [| | | |t| |]; simpl in H; try discriminate.
    destruct (Str.is_empty (Str.strip t)); simpl in H; [discriminate|].
    destruct (200 <? Str.len t); simpl in H; [discriminate|].
    destruct description as [| | | |ds| |]; simpl in H; try discriminate.
    destruct (Str.is_empty (Str.strip ds)); simpl in H; [discriminate|].
    destruct (2000 <? Str.len ds); simpl in H; [discriminate|].
    destruct priority as [| | | |p| |]; simpl in H; try discriminate.
    destruct ((p =? "low")%string || ((p =? "medium")%string
              || ((p =? "high")%string || false))); simpl in H; [|discriminate].
    destruct (d !! "due_date") as [due|] eqn:Hdue; simpl in H.
    + destruct due as [| | | |dd| |]; simpl in H; try discriminate.
      * injection H as <-. split; [done|].
        exists d, t, ds, p. split_and!; try done.
        intros v Hv. rewrite Hdue in Hv. injection Hv as <-. by right.
      * destruct (fromisoformat_accepts _); simpl in H; [|discriminate].
        injection H as <-. split; [done|].
        exists d, t, ds, p. split_and!; try done.
        intros v Hv. rewrite Hdue in Hv. injection Hv as <-. by left.
    + injection H as <-. split; [done|].
      exists d, t, ds, p. split_and!; try done.
      intros v Hv. rewrite Hdue in Hv. discriminate.
Qed.

Let handle_task :=
  handle_task json_dumps fromisoformat_accepts uuid4 now_utc
  boto3_client send_message
    TASK_QUEUE_URL.
Let lambda_handler :=
  lambda_handler json_loads json_dumps fromisoformat_accepts uuid4 now_utc
  boto3_client
    send_message TASK_QUEUE_URL.
Let validate_task := validate_task fromisoformat_accepts.

Lemma handle_task_rejects task_data message w :
  validate_task task_data = Return (false, message) →
  handle_task task_data w =
    (Return (create_response json_dumps 400
               (PDict {[ "error" := from_option PStr PNone message ]}) None),
     append_log [Log WARNING "Validation failed: {}"
                   [from_option PStr PNone message]] w).
Proof.
  unfold validate_task, handle_task, Api.handle_task. intros Hv.
  run. rewrite Hv. by run.
Qed.

Lemma handle_task_raises task_data e w :
  validate_task task_data = Raise e → handle_task task_data w = (Raise e, w).
Proof.
  unfold validate_task, handle_task, Api.handle_task. intros Hv.
  run. rewrite Hv. by run.
Qed.

Lemma normalized_no_metadata title description priority due_date :
  normalized title description priority due_date !! "task_id" = None
  ∧ normalized title description priority due_date !! "created_at" = None.
Proof. by destruct due_date. Qed.

Lemma envelope_lookup task_id created_at (task : gmap string pyval) :
  task !! "task_id" = None → task !! "created_at" = None →
  envelope task_id created_at task !! "task_id" = Some (PStr task_id)
  ∧ envelope task_id created_at task !! "created_at" = Some (PStr created_at)
  ∧ ∀ k v, task !! k = Some v → envelope task_id created_at task !! k = Some v.
Proof.
  intros Hid Hat. unfold envelope. split_and!.
  - by rewrite lookup_union_r.
  - by rewrite lookup_union_r.
  - intros k v Hk. by apply lookup_union_Some_l.
Qed.

Lemma handle_task_accepts task_data w :
  validate_task task_data = Return (true, None) →
  client_ready boto3_client w = true →
  ∃ task entries,
    sanitize_task task_data = Return (PDict task) ∧
    task !! "task_id" = None ∧ task !! "created_at" = None ∧
    handle_task task_data w =
      (match send_message (sqs_calls w) (enqueue_request w task) with
       | Return _ =>
           Return (create_response json_dumps 200
                     (queued_body (next_task_id uuid4 w)) None)
       | Raise e => Raise e
       end,
       after_enqueue (enqueue_request w task) entries w).
Proof.
  intros Hv Hready.
  destruct (validate_task_accepts _ _ Hv)
    as (_ & d & t & ds & p & -> & Ht & Hds & Hp & Hdue).
  pose proof (sanitize_task_strings d t ds p Ht Hds Hp Hdue) as Hs.
  destruct (send_to_queue_dict
              (normalized (Str.strip t) (Str.strip ds) (Str.lower (Str.strip p))
                 (Str.strip <$> due_date_kept d)) w Hready) as (entries & Hsend).
  eexists _, entries. split; [exact Hs|].
  split; [apply normalized_no_metadata|]. split; [apply normalized_no_metadata|].
  unfold validate_task in Hv. unfold handle_task, Api.handle_task.
  rewrite run_bind. unfold lift at 1. rewrite Hv. cbn [negb].
  rewrite run_bind. unfold lift at 1. rewrite Hs.
  rewrite run_bind. fold send_to_queue. rewrite Hsend.
  by destruct (send_message _ _).
Qed.

Lemma handle_task_no_client task_data e w :
  validate_task task_data = Return (true, None) →
  sqs_client w = false → boto3_client = Raise e →
  ∃ entries, handle_task task_data w = (Raise e, after_draw entries w).
Proof.
  intros Hv Hclient Hraise.
  destruct (validate_task_accepts _ _ Hv)
    as (_ & d & t & ds & p & -> & Ht & Hds & Hp & Hdue).
  pose proof (sanitize_task_strings d t ds p Ht Hds Hp Hdue) as Hs.
  destruct (send_to_queue_no_client
              (normalized (Str.strip t) (Str.strip ds) (Str.lower (Str.strip p))
                 (Str.strip <$> due_date_kept d)) e w Hclient Hraise)
    as (entries & Hsend).
  exists entries.
  unfold validate_task in Hv. unfold handle_task, Api.handle_task.
  rewrite run_bind. unfold lift at 1. rewrite Hv. cbn [negb].
  rewrite run_bind. unfold lift at 1. rewrite Hs.
  rewrite run_bind. fold send_to_queue. by rewrite Hsend.
Qed.

Let received (event : pyval) : log_entry :=
  Log INFO "Received event: {}" [PStr (json_dumps event)].

(** The handler on a request whose body gives a task: what [handle_task]
    returns is returned, and what it raises is answered with a 500. *)
Lemma lambda_handler_request (event task_data : pyval) (w : world) :
  request_task json_loads event = Return task_data →
  ∃ entries,
    lambda_handler event w =
      match handle_task task_data (append_log [received event] w) with
      | (Return response, w') => (Return response, w')
      | (Raise e, w') =>
          (Return (failure_response json_dumps e), append_log entries w')
      end.
Proof.
  intros Hreq. unfold request_task in Hreq.
  destruct event as [| | | | | |ev]; try discriminate. simpl in Hreq.
  assert (∀ w1,
    (body ← lift (get (PDict ev) "body" (PStr "{}"));
     match body with
     | PStr s =>
         match json_loads s with
         | Raise (JSONDecodeError _) =>
             mret (create_response json_dumps 400
                     (error_body "Invalid JSON in request body") None)
         | Raise e => raise e
         | Return task_data => handle_task task_data
         end
     | _ => handle_task body
     end) w1 = handle_task task_data w1) as Hbody.
  { intros w1. run.
    destruct (default (PStr "{}") (ev !! "body")) as [| | | |s| |];
      try (by injection Hreq as ->).
    by rewrite Hreq. }
  unfold lambda_handler, Api.lambda_handler.
  rewrite run_bind, run_log, run_try. fold handle_task. rewrite Hbody.
  destruct (handle_task task_data _) as [[response|e] w'].
  - by exists [].
  - destruct e; run; eexists; reflexivity.
Qed.

Lemma lambda_handler_request_raises (event : pyval) (e : exn) (w : world) :
  request_task json_loads event = Raise e →
  ∃ entries,
    lambda_handler event w =
      (Return (match e with
               | JSONDecodeError _ =>
                   create_response json_dumps 400
                     (error_body "Invalid JSON in request body") None
               | _ => failure_response json_dumps e
               end),
       append_log entries w).
Proof.
  intros Hreq. unfold request_task in Hreq.
  unfold lambda_handler, Api.lambda_handler.
  destruct event as [| | | | | |ev]; simpl in Hreq;
    try (injection Hreq as <-; run; rewrite append_log_app; eexists; reflexivity).
  run.
  destruct (default (PStr "{}") (ev !! "body")) as [| | | |s| |];
    try discriminate.
  rewrite Hreq.
  destruct e; run; rewrite ?append_log_app; eexists; reflexivity.
Qed.



Local Notation "'ingest'" :=
  (Api.lambda_handler json_loads json_dumps fromisoformat_accepts uuid4 now_utc
  boto3_client
     send_message TASK_QUEUE_URL).
Local Notation "'validate'" := (Api.validate_task fromisoformat_accepts).
Local Notation "'respond'" := (Api.create_response json_dumps).
Local Notation "'request_for'" :=
  (ApiSpec.enqueue_request json_dumps uuid4 now_utc TASK_QUEUE_URL).

(** The run of the handler on a request the validator rejects. *)
Lemma lambda_handler_rejects event task_data message w :
  request_task json_loads event = Return task_data →
  validate task_data = Return (false, message) →
  ∃ entries,
    ingest event w =
      (Return (respond 400
                 (PDict {[ "error" := from_option PStr PNone message ]}) None),
       append_log entries w).
Proof.
  intros Hreq Hv.
  destruct (lambda_handler_request event task_data w Hreq) as (entries & Hrun).
  unfold lambda_handler in Hrun. rewrite Hrun.
  rewrite (handle_task_rejects _ _ _ Hv), append_log_app. by eexists.
Qed.

(** The run of the handler on a request the validator accepts, with a
    client at hand. *)
Lemma lambda_handler_accepts event task_data w :
  request_task json_loads event = Return task_data →
  validate task_data = Return (true, None) →
  client_ready boto3_client w = true →
  ∃ task entries,
    sanitize_task task_data = Return (PDict task) ∧
    task !! "task_id" = None ∧ task !! "created_at" = None ∧
    ingest event w =
      (Return (enqueue_response json_dumps (next_task_id uuid4 w)
                 (send_message (sqs_calls w) (request_for w task))),
       after_enqueue (request_for w task) entries w).
Proof.
  intros Hreq Hv Hready.
  destruct (lambda_handler_request event task_data w Hreq) as (entries & Hrun).
  unfold lambda_handler in Hrun. rewrite Hrun.
  destruct (handle_task_accepts task_data (append_log [received event] w) Hv
              Hready)
    as (task & es & Hs & Hid & Hat & ->).
  exists task. unfold enqueue_request, after_enqueue. simpl.
  destruct (send_message _ _) as [answer|e]; simpl.
  - exists ([received event] ++ es). split_and!; try done.
    by rewrite app_assoc.
  - exists ([received event] ++ es ++ entries). split_and!; try done.
    by rewrite !app_assoc.
Qed.

(** The run of the handler on a request the validator accepts, when there
    is no client and creating one raises: the answer is the 500 of that
    exception, and the broker is not called. *)
Lemma lambda_handler_no_client event task_data e w :
  request_task json_loads event = Return task_data →
  validate task_data = Return (true, None) →
  sqs_client w = false → boto3_client = Raise e →
  ∃ entries,
    ingest event w
    = (Return (failure_response json_dumps e), after_draw entries w).
Proof.
  intros Hreq Hv Hclient Hraise.
  destruct (lambda_handler_request event task_data w Hreq) as (entries & Hrun).
  unfold lambda_handler in Hrun. rewrite Hrun.
  destruct (handle_task_no_client task_data e (append_log [received event] w)
              Hv Hclient Hraise) as (es & ->).
  exists ([received event] ++ es ++ entries).
  unfold after_draw, append_log. simpl. by rewrite <- !app_assoc.
Qed.




End ingestion.




(** The sample request is answered 200, and its envelope is on the queue. *)
Example lambda_handler_sample_request :
  Api.lambda_handler Samples.loads Samples.dumps Samples.accepts Samples.uuid4
    Samples.now_utc Samples.boto3_client Samples.send_message Samples.queue_url
    Samples.request initial_world
  = (Return (Api.create_response Samples.dumps 200
               (Api.queued_body "00000000-0000-4000-8000-000000000000") None),
     ApiSpec.after_enqueue
       {| QueueUrl := Samples.queue_url;
          MessageBody :=
            Samples.dumps
              (PDict (ApiSpec.envelope "00000000-0000-4000-8000-000000000000"
                        "2025-11-13T10:00:00Z"
                        (ApiSpec.normalized "Write report" "Quarterly numbers"
                           "high" (Some "2025-12-31T23:59:59Z"))));
          MessageGroupId := "task-processing";
          MessageDeduplicationId := "00000000-0000-4000-8000-000000000000" |}
       [Log INFO "Received event: {}" [PStr (Samples.dumps Samples.request)];
        Log INFO "Task {} sent to queue successfully"
          [PStr "00000000-0000-4000-8000-000000000000"]]
       initial_world).
Proof. vm_compute. reflexivity. Qed.

(** A record that is not a dict is outside the loop's [try]: the handler
    raises. *)
Example lambda_handler_record_not_dict :
  (QueueProcessor.lambda_handler Samples.loads
     (PDict {[ "Records" := PList [PStr "m1"] ]}) initial_world).1
  = Raise (AttributeError "'str' object has no attribute 'get'").
Proof. vm_compute. reflexivity. Qed.

(** * Further properties *)

(** ** Strings *)

Lemma isspace_lower_char c : Str.isspace (Str.lower_char c) = Str.isspace c.
Proof. by destruct c as [[] [] [] [] [] [] [] []]. Qed.

Lemma lower_char_idem c : Str.lower_char (Str.lower_char c) = Str.lower_char c.
Proof. by destruct c as [[] [] [] [] [] [] [] []]. Qed.

Lemma lower_idem s : Str.lower (Str.lower s) = Str.lower s.
Proof. induction s as [|c s IH]; simpl; [done|]. by rewrite lower_char_idem, IH. Qed.

Lemma is_empty_lower s : Str.is_empty (Str.lower s) = Str.is_empty s.
Proof. by destruct s. Qed.

Lemma lstrip_lower s : Str.lstrip (Str.lower s) = Str.lower (Str.lstrip s).
Proof.
  induction s as [|c s IH]; simpl; [done|].
  rewrite isspace_lower_char. by destruct (Str.isspace c); simpl.
Qed.

Lemma rstrip_lower s : Str.rstrip (Str.lower s) = Str.lower (Str.rstrip s).
Proof.
  induction s as [|c s IH]; simpl; [done|].
  rewrite isspace_lower_char, IH, is_empty_lower.
  by destruct (Str.isspace c && Str.is_empty (Str.rstrip s)).
Qed.

Lemma strip_lower s : Str.strip (Str.lower s) = Str.lower (Str.strip s).
Proof. unfold Str.strip. by rewrite lstrip_lower, rstrip_lower. Qed.

Lemma rstrip_idem s : Str.rstrip (Str.rstrip s) = Str.rstrip s.
Proof.
  induction s as [|c s IH]; simpl; [done|].
  destruct (Str.isspace c && Str.is_empty (Str.rstrip s)) eqn:E; simpl; [done|].
  by rewrite IH, E.
Qed.

Lemma lstrip_headed s : TaskSpec.headed (Str.lstrip s).
Proof.
  induction s as [|c s IH]; simpl; [done|].
  by destruct (Str.isspace c) eqn:E.
Qed.

Lemma rstrip_headed s : TaskSpec.headed s → TaskSpec.headed (Str.rstrip s).
Proof. destruct s as [|c s]; simpl; [done|]. intros E. by rewrite E. Qed.

Lemma lstrip_of_headed s : TaskSpec.headed s → Str.lstrip s = s.
Proof. destruct s as [|c s]; simpl; [done|]. by intros ->. Qed.

Lemma strip_idem s : Str.strip (Str.strip s) = Str.strip s.
Proof.
  unfold Str.strip.
  rewrite (lstrip_of_headed (Str.rstrip (Str.lstrip s)))
    by apply rstrip_headed, lstrip_headed.
  apply rstrip_idem.
Qed.

(** ** More on the validator *)

Lemma first_failure_verdict checks d :
  ApiSpec.first_failure checks d = (true, None)
  ∨ ∃ message, ApiSpec.first_failure checks d = (false, Some message).
Proof.
  induction checks as [|c cs IH]; simpl; [by left|].
  destruct (c d); [right; by eexists|done].
Qed.

Lemma validate_task_dict_accepts (fromisoformat_accepts : string → bool)
    (d : gmap string pyval) :
  Api.validate_task fromisoformat_accepts (PDict d) = Return (true, None)
  ↔ TaskSpec.valid_task fromisoformat_accepts d.
Proof.
  unfold TaskSpec.valid_task, TaskSpec.text_field, TaskSpec.due_date_accepted,
    Api.validate_task. simpl. split.
  - intros H.
    destruct (d !! "title") as [title|]; simpl in H; [|discriminate].
    destruct (d !! "description") as [description|]; simpl in H; [|discriminate].
    destruct (d !! "priority") as [priority|]; simpl in H; [|discriminate].
    destruct title as [| | | |t| |]; simpl in H; try discriminate.
    destruct (Str.is_empty (Str.strip t)) eqn:Et; simpl in H; [discriminate|].
    destruct (Z.ltb_spec 200 (Str.len t)); simpl in H; [discriminate|].
    destruct description as [| | | |ds| |]; simpl in H; try discriminate.
    destruct (Str.is_empty (Str.strip ds)) eqn:Eds; simpl in H; [discriminate|].
    destruct (Z.ltb_spec 2000 (Str.len ds)); simpl in H; [discriminate|].
    destruct priority as [| | | |p| |]; simpl in H; try discriminate.
    apply is_empty_false in Et, Eds.
    assert (p ∈ Api.valid_priorities) as Hp.
    { unfold Api.valid_priorities.
      destruct (String.eqb_spec p "low") as [->|_]; [set_solver|].
      destruct (String.eqb_spec p "medium") as [->|_]; [set_solver|].
      destruct (String.eqb_spec p "high") as [->|_]; [set_solver|].
      simpl in H. discriminate. }
    split_and!; [by eauto..|].
    destruct (d !! "due_date") as [[| | | |dd| |]|]; simpl in H;
      try done; by repeat case_match.
  - intros ((t & -> & Ht & Hlen) & (ds & -> & Hds & Hdslen)
            & (p & -> & Hp) & Hdue). simpl.
    apply is_empty_false in Ht, Hds. rewrite Ht, Hds. simpl.
    destruct (Z.ltb_spec 200 (Str.len t)); [lia|].
    destruct (Z.ltb_spec 2000 (Str.len ds)); [lia|]. simpl.
    assert ((p =? "low")%string || ((p =? "medium")%string
            || ((p =? "high")%string || false)) = true) as ->.
    { unfold Api.valid_priorities in Hp.
      repeat (apply elem_of_cons in Hp as [->|Hp]; [done|]).
      by apply elem_of_nil in Hp. }
    simpl.
    destruct (d !! "due_date") as [[| | | |dd| |]|]; simpl; try done.
    by rewrite Hdue.
Qed.

(** X1.  The validator accepts a value exactly when it is a dict whose
    title and description are strings that are not blank and, as given,
    at most 200 and 2000 characters long, whose priority is exactly one of
    [low], [medium], [high], and whose due date is absent, null, or a string
    that [datetime.fromisoformat] parses once [Z] is replaced by [+00:00]. *)
Theorem validate_task_accepts_iff (fromisoformat_accepts : string → bool)
    (task_data : pyval) :
  Api.validate_task fromisoformat_accepts task_data = Return (true, None)
  ↔ ∃ d, task_data = PDict d ∧ TaskSpec.valid_task fromisoformat_accepts d.
Proof.
  split.
  - intros H.
    destruct (validate_task_accepts _ _ _ H) as (_ & d & _ & _ & _ & -> & _).
    exists d. split; [done|]. by apply validate_task_dict_accepts.
  - intros (d & -> & Hvalid). by apply validate_task_dict_accepts.
Qed.

(** X2.  Whenever the validator returns, its verdict is either
    [(True, None)] or [(False, message)] with a message: a rejection always
    says why, an acceptance never carries a message. *)
Theorem validate_task_verdict (fromisoformat_accepts : string → bool)
    (task_data : pyval) (is_valid : bool) (error_message : option string) :
  Api.validate_task fromisoformat_accepts task_data
  = Return (is_valid, error_message) →
  (is_valid = true ∧ error_message = None)
  ∨ (is_valid = false ∧ ∃ message, error_message = Some message).
Proof.
  intros H. destruct is_valid.
  - left. by destruct (validate_task_accepts _ _ _ H) as [-> _].
  - right. split; [done|].
    destruct task_data as [| | | |s|l|d]; try discriminate.
    + unfold Api.validate_task in H. simpl in H.
      repeat (destruct (Str.contains _ s); simpl in H;
              [|injection H as <-; by eexists]).
      discriminate.
    + unfold Api.validate_task in H. simpl in H.
      repeat (destruct (existsb _ l); simpl in H;
              [|injection H as <-; by eexists]).
      discriminate.
    + rewrite validate_task_checks in H.
      destruct (first_failure_verdict
                  (ApiSpec.validation_checks fromisoformat_accepts) d)
        as [Hok|(message & Hno)].
      * rewrite Hok in H. discriminate.
      * rewrite Hno in H. injection H as <-. by eexists.
Qed.

Lemma validate_task_verdict_witness :
  (false = true ∧ Some "title cannot be empty" = None)
  ∨ (false = false ∧ ∃ message, Some "title cannot be empty" = Some message).
Proof.
  apply (validate_task_verdict Samples.accepts
           (PDict (Samples.task "   " "d" "low")) false
           (Some "title cannot be empty")).
  vm_compute. reflexivity.
Defined.

(** X3.  The validator and the sanitizer read the keys [title],
    [description], [priority] and [due_date] only: two dicts that agree on
    these four get the same verdict and the same sanitized task, whatever
    other keys they carry. *)
Theorem task_fields_only (fromisoformat_accepts : string → bool)
    (d d' : gmap string pyval) :
  (∀ k, k ∈ TaskSpec.task_fields → d !! k = d' !! k) →
  Api.validate_task fromisoformat_accepts (PDict d)
  = Api.validate_task fromisoformat_accepts (PDict d')
  ∧ Api.sanitize_task (PDict d) = Api.sanitize_task (PDict d').
Proof.
  intros Hagree.
  assert (d !! "title" = d' !! "title") as Ht
    by (apply Hagree; unfold TaskSpec.task_fields; set_solver).
  assert (d !! "description" = d' !! "description") as Hds
    by (apply Hagree; unfold TaskSpec.task_fields; set_solver).
  assert (d !! "priority" = d' !! "priority") as Hp
    by (apply Hagree; unfold TaskSpec.task_fields; set_solver).
  assert (d !! "due_date" = d' !! "due_date") as Hdue
    by (apply Hagree; unfold TaskSpec.task_fields; set_solver).
  unfold Api.validate_task, Api.sanitize_task, Api.due_date_given. simpl.
  by rewrite Ht, Hds, Hp, Hdue.
Qed.

Lemma task_fields_only_witness :
  Api.validate_task Samples.accepts (PDict Samples.report)
  = Api.validate_task Samples.accepts
      (PDict (<["task_id" := PStr "chosen-by-the-client"]> Samples.report))
  ∧ Api.sanitize_task (PDict Samples.report)
    = Api.sanitize_task
        (PDict (<["task_id" := PStr "chosen-by-the-client"]> Samples.report)).
Proof.
  apply (task_fields_only Samples.accepts Samples.report
           (<["task_id" := PStr "chosen-by-the-client"]> Samples.report)).
  intros k Hk. rewrite lookup_insert_ne; [done|].
  unfold TaskSpec.task_fields in Hk.
  repeat (apply elem_of_cons in Hk as [->|Hk]; [done|]).
  by apply elem_of_nil in Hk.
Defined.

(** ** More on the sanitizer *)

(** What the sanitizer has read when it returns. *)
Lemma sanitize_task_returns (task_data result : pyval) :
  Api.sanitize_task task_data = Return result →
  ∃ d t ds p,
    task_data = PDict d ∧ d !! "title" = Some (PStr t) ∧
    d !! "description" = Some (PStr ds) ∧ d !! "priority" = Some (PStr p) ∧
    (∀ v, d !! "due_date" = Some v → is_str v = true ∨ truthy v = false).
Proof.
  intros H. unfold Api.sanitize_task, Api.due_date_given in H.
  destruct task_data as [| | | | | |d]; try discriminate. simpl in H.
  destruct (d !! "title") as [[| | | |t| |]|] eqn:Ht; try discriminate.
  simpl in H.
  destruct (d !! "description") as [[| | | |ds| |]|] eqn:Hds; try discriminate.
  simpl in H.
  destruct (d !! "priority") as [[| | | |p| |]|] eqn:Hp; try discriminate.
  simpl in H.
  exists d, t, ds, p. split_and!; try done.
  intros v Hv. rewrite Hv in H. simpl in H.
  destruct (truthy v) eqn:Etruthy; [|by right]. left.
  by destruct v.
Qed.

(** X4.  The sanitizer returns exactly on a dict whose title, description
    and priority are strings and whose due date is absent, counts as false
    or is a string.  It does not validate: when it fails it raises
    [KeyError] for a missing field or [AttributeError] for a value that is
    not a string, and nothing else. *)
Theorem sanitize_task_returns_iff (d : gmap string pyval) :
  (raised (Api.sanitize_task (PDict d)) = false ↔ TaskSpec.sanitizable d)
  ∧ ∀ e, Api.sanitize_task (PDict d) = Raise e →
         (∃ k, d !! k = None ∧ e = KeyError k) ∨ (∃ m, e = AttributeError m).
Proof.
  split.
  - split.
    + destruct (Api.sanitize_task (PDict d)) as [result|e] eqn:H; [|done].
      intros _.
      destruct (sanitize_task_returns _ _ H)
        as (d' & t & ds & p & [= <-] & Ht & Hds & Hp & Hdue).
      unfold TaskSpec.sanitizable. eauto 10.
    + intros ((t & Ht) & (ds & Hds) & (p & Hp) & Hdue).
      by rewrite (sanitize_task_strings d t ds p Ht Hds Hp Hdue).
  - intros e. unfold Api.sanitize_task, Api.due_date_given. simpl.
    destruct (d !! "title") as [[| | | |t| |]|] eqn:Ht; simpl;
      try (intros [= <-]; eauto).
    destruct (d !! "description") as [[| | | |ds| |]|] eqn:Hds; simpl;
      try (intros [= <-]; eauto).
    destruct (d !! "priority") as [[| | | |p| |]|] eqn:Hp; simpl;
      try (intros [= <-]; eauto).
    destruct (d !! "due_date") as [v|] eqn:Hdue; simpl; [|done].
    destruct (truthy v); simpl; [|done].
    destruct v; simpl; try done; intros [= <-]; eauto.
Qed.

Lemma due_date_kept_Some (d : gmap string pyval) (due : string) :
  ApiSpec.due_date_kept d = Some due →
  d !! "due_date" = Some (PStr due) ∧ due ≠ EmptyString.
Proof.
  unfold ApiSpec.due_date_kept.
  destruct (d !! "due_date") as [[| | | |s| |]|]; try done.
  destruct s; simpl; [done|]. by intros [= <-].
Qed.

(** X5.  Sanitizing twice is sanitizing once, provided the due date is not
    a string of white space only: the sanitizer returns its own result
    unchanged. *)
Theorem sanitize_task_idempotent (d : gmap string pyval) (result : pyval) :
  Api.sanitize_task (PDict d) = Return result →
  (∀ due, d !! "due_date" = Some (PStr due) → ¬ TaskSpec.blank due) →
  Api.sanitize_task result = Return result.
Proof.
  intros H Hdue.
  destruct (sanitize_task_returns _ _ H)
    as (d' & t & ds & p & [= <-] & Ht & Hds & Hp & Hfalsy).
  rewrite (sanitize_task_strings d t ds p Ht Hds Hp Hfalsy) in H.
  injection H as <-.
  set (n := ApiSpec.normalized (Str.strip t) (Str.strip ds)
              (Str.lower (Str.strip p)) (Str.strip <$> ApiSpec.due_date_kept d)).
  assert (ApiSpec.due_date_kept n = Str.strip <$> ApiSpec.due_date_kept d
          ∧ n !! "title" = Some (PStr (Str.strip t))
          ∧ n !! "description" = Some (PStr (Str.strip ds))
          ∧ n !! "priority" = Some (PStr (Str.lower (Str.strip p)))
          ∧ ∀ v, n !! "due_date" = Some v → is_str v = true ∨ truthy v = false)
    as (Hkept & Hnt & Hnds & Hnp & Hnfalsy).
  { subst n.
    destruct (ApiSpec.due_date_kept d) as [due|] eqn:Ekept; simpl;
      [|by split_and!].
    apply due_date_kept_Some in Ekept as [Edue Hne].
    split_and!; try done; [|intros v [= <-]; by left].
    unfold ApiSpec.due_date_kept. simpl.
    destruct (Str.strip due) eqn:Estrip; simpl; [|done].
    by destruct (Hdue due Edue). }
  rewrite (sanitize_task_strings n _ _ _ Hnt Hnds Hnp Hnfalsy), Hkept.
  unfold n. do 3 f_equal.
  - apply strip_idem.
  - apply strip_idem.
  - by rewrite strip_lower, lower_idem, strip_idem.
  - destruct (ApiSpec.due_date_kept d); simpl; [|done]. by rewrite strip_idem.
Qed.

Lemma sanitize_task_idempotent_witness :
  Api.sanitize_task
    (PDict (ApiSpec.normalized "Write report" "Quarterly numbers" "high"
              (Some "2025-12-31T23:59:59Z")))
  = Return (PDict (ApiSpec.normalized "Write report" "Quarterly numbers" "high"
                     (Some "2025-12-31T23:59:59Z"))).
Proof.
  refine (sanitize_task_idempotent Samples.report _ _ _).
  - vm_compute. reflexivity.
  - intros due Hdue. vm_compute in Hdue. injection Hdue as <-.
    intros [_ Hblank]. vm_compute in Hblank. discriminate.
Defined.

(** X6.  A due date that is a non-empty string of white space is kept, as
    the empty string; sanitizing the result once more drops it.  So the
    sanitizer can return a task whose [due_date] is empty, and on such
    input it is not idempotent. *)
Theorem sanitize_task_blank_due_date (d result : gmap string pyval)
    (due : string) :
  Api.sanitize_task (PDict d) = Return (PDict result) →
  d !! "due_date" = Some (PStr due) → TaskSpec.blank due →
  result !! "due_date" = Some (PStr EmptyString)
  ∧ Api.sanitize_task (PDict result) = Return (PDict (delete "due_date" result)).
Proof.
  intros H Hdue [Hne Hblank].
  destruct (sanitize_task_returns _ _ H)
    as (d' & t & ds & p & [= <-] & Ht & Hds & Hp & Hfalsy).
  rewrite (sanitize_task_strings d t ds p Ht Hds Hp Hfalsy) in H.
  injection H as <-.
  unfold ApiSpec.due_date_kept. rewrite Hdue.
  destruct due as [|c due]; [done|]. simpl. rewrite Hblank. split; [done|].
  rewrite (sanitize_task_strings _ (Str.strip t) (Str.strip ds)
             (Str.lower (Str.strip p))); try done.
  - rewrite !strip_idem, strip_lower, lower_idem, strip_idem.
    by rewrite delete_insert_id.
  - intros v [= <-]. by right.
Qed.

Lemma sanitize_task_blank_due_date_witness :
  (<["due_date" := PStr EmptyString]> (Samples.task "A" "B" "low")
   : gmap string pyval) !! "due_date" = Some (PStr EmptyString)
  ∧ Api.sanitize_task
      (PDict (<["due_date" := PStr EmptyString]> (Samples.task "A" "B" "low")))
    = Return (PDict (delete "due_date"
                       (<["due_date" := PStr EmptyString]>
                          (Samples.task "A" "B" "low")))).
Proof.
  apply (sanitize_task_blank_due_date
           (<["due_date" := PStr "  "]> (Samples.task " A" "B " "LOW"))
           (<["due_date" := PStr EmptyString]> (Samples.task "A" "B" "low"))
           "  ").
  - vm_compute. reflexivity.
  - vm_compute. reflexivity.
  - split; [discriminate|vm_compute; reflexivity].
Defined.

(** X7.  Whatever the sanitizer returns is a dict that holds [title],
    [description] and [priority] as strings and, besides them, at most
    [due_date]: every other key of the input is dropped. *)
Theorem sanitize_task_keys (task_data result : pyval) :
  Api.sanitize_task task_data = Return result →
  ∃ r,
    result = PDict r
    ∧ (∀ k, is_Some (r !! k) → k ∈ TaskSpec.task_fields)
    ∧ (∃ t, r !! "title" = Some (PStr t))
    ∧ (∃ ds, r !! "description" = Some (PStr ds))
    ∧ (∃ p, r !! "priority" = Some (PStr p))
    ∧ (∀ v, r !! "due_date" = Some v → is_str v = true).
Proof.
  intros H.
  destruct (sanitize_task_returns _ _ H)
    as (d & t & ds & p & -> & Ht & Hds & Hp & Hfalsy).
  rewrite (sanitize_task_strings d t ds p Ht Hds Hp Hfalsy) in H.
  injection H as <-. eexists. split; [done|].
  unfold TaskSpec.task_fields.
  destruct (Str.strip <$> ApiSpec.due_date_kept d) as [due|]; simpl.
  - split_and!; try by eexists.
    + intros k [v Hk].
      repeat (apply lookup_insert_Some in Hk as [[<- _]|[_ Hk]]; [set_solver|]).
      by rewrite lookup_empty in Hk.
    + by intros v [= <-].
  - split_and!; try by eexists.
    + intros k [v Hk].
      repeat (apply lookup_insert_Some in Hk as [[<- _]|[_ Hk]]; [set_solver|]).
      by rewrite lookup_empty in Hk.
    + done.
Qed.

Lemma sanitize_task_keys_witness :
  ∃ r,
    PDict (ApiSpec.normalized "Write report" "Quarterly numbers" "high"
             (Some "2025-12-31T23:59:59Z")) = PDict r
    ∧ (∀ k, is_Some (r !! k) → k ∈ TaskSpec.task_fields)
    ∧ (∃ t, r !! "title" = Some (PStr t))
    ∧ (∃ ds, r !! "description" = Some (PStr ds))
    ∧ (∃ p, r !! "priority" = Some (PStr p))
    ∧ (∀ v, r !! "due_date" = Some v → is_str v = true).
Proof.
  apply (sanitize_task_keys
           (PDict (<["task_id" := PStr "chosen-by-the-client"]> Samples.report))).
  vm_compute. reflexivity.
Defined.

(** X8.  The sanitized form of a task the validator accepts has a title
    and a description that are not empty, carry no white space around them
    and are within 200 and 2000 characters; its priority is the one given,
    the normalisation changing nothing on [low], [medium], [high]. *)
Theorem sanitize_task_of_valid (fromisoformat_accepts : string → bool)
    (d : gmap string pyval) :
  TaskSpec.valid_task fromisoformat_accepts d →
  ∃ r,
    Api.sanitize_task (PDict d) = Return (PDict r)
    ∧ TaskSpec.trimmed_text 200 (r !! "title")
    ∧ TaskSpec.trimmed_text 2000 (r !! "description")
    ∧ r !! "priority" = d !! "priority"
    ∧ ∃ p, r !! "priority" = Some (PStr p) ∧ p ∈ Api.valid_priorities.
Proof.
  intros ((t & Ht & Hnb & Hlen) & (ds & Hds & Hdsnb & Hdslen)
          & (p & Hp & Hin) & Hdue).
  assert (∀ v, d !! "due_date" = Some v → is_str v = true ∨ truthy v = false)
    as Hfalsy.
  { intros v Hv. rewrite Hv in Hdue. destruct v; try done; [by right|by left]. }
  rewrite (sanitize_task_strings d t ds p Ht Hds Hp Hfalsy). eexists.
  split; [done|].
  assert (Str.lower (Str.strip p) = p) as Hsame.
  { unfold Api.valid_priorities in Hin.
    repeat (apply elem_of_cons in Hin as [->|Hin]; [done|]).
    by apply elem_of_nil in Hin. }
  pose proof (strip_len t). pose proof (strip_len ds).
  destruct (Str.strip <$> ApiSpec.due_date_kept d) as [due|]; simpl;
    (split_and!;
     [exists (Str.strip t); split_and!; [done|done|apply strip_idem|lia]
     |exists (Str.strip ds); split_and!; [done|done|apply strip_idem|lia]
     |by rewrite Hp, Hsame
     |exists p; by rewrite Hsame]).
Qed.

Lemma sanitize_task_of_valid_witness :
  ∃ r,
    Api.sanitize_task (PDict Samples.report) = Return (PDict r)
    ∧ TaskSpec.trimmed_text 200 (r !! "title")
    ∧ TaskSpec.trimmed_text 2000 (r !! "description")
    ∧ r !! "priority" = Samples.report !! "priority"
    ∧ ∃ p, r !! "priority" = Some (PStr p) ∧ p ∈ Api.valid_priorities.
Proof.
  apply (sanitize_task_of_valid Samples.accepts Samples.report).
  split_and!.
  - exists "  Write report ". split_and!;
      [reflexivity|vm_compute; discriminate|vm_compute; discriminate].
  - exists "Quarterly numbers". split_and!;
      [reflexivity|vm_compute; discriminate|vm_compute; discriminate].
  - exists "high". split; [reflexivity|].
    unfold Api.valid_priorities. set_solver.
  - vm_compute. reflexivity.
Defined.

(** ** More on the enqueue and the response *)

Section enqueue_more.
Import Api ApiSpec.
Variable json_dumps : pyval → string.
Variable uuid4 : nat → string.
Variable now_utc : nat → datetime.
Variable boto3_client : outcome ().
Variable send_message : list send_request → send_request → outcome pyval.
Variable TASK_QUEUE_URL : string.

Local Notation "'enqueue'" :=
  (Api.send_to_queue json_dumps uuid4 now_utc
  boto3_client send_message TASK_QUEUE_URL).

(** X9.  Called on any dict, [send_to_queue] builds one request: its body
    carries every key of the task, the task's keys winning over the
    metadata, so that a task that brings its own [task_id] keeps it in the
    body, while the deduplication identifier is the one drawn.  With a
    client at hand (there is one, or creating one succeeds) that request is
    submitted in exactly one [send_message] call; the identifier drawn is
    returned when the broker answers, and the broker's exception raised as
    it is otherwise.  Without a client, when creating one raises, that
    exception is raised and the broker is not called; the identifier and
    the reading of the clock are spent. *)
Theorem send_to_queue_submits (task : gmap string pyval) (w : world) :
  ∃ body request,
    request = {| QueueUrl := TASK_QUEUE_URL;
                 MessageBody := json_dumps (PDict body);
                 MessageGroupId := "task-processing";
                 MessageDeduplicationId := uuid4 (uuid_draws w) |}
    ∧ (∀ k v, task !! k = Some v → body !! k = Some v)
    ∧ (task !! "task_id" = None →
       body !! "task_id" = Some (PStr (uuid4 (uuid_draws w))))
    ∧ (task !! "created_at" = None →
       body !! "created_at"
       = Some (PStr (isoformat_naive (now_utc (clock_reads w)) +:+ "Z")))
    ∧ (∀ k, k ≠ "task_id" → k ≠ "created_at" → body !! k = task !! k)
    ∧ (client_ready boto3_client w = true →
       ∃ entries,
         enqueue (PDict task) w
         = (match send_message (sqs_calls w) request with
            | Return _ => Return (uuid4 (uuid_draws w))
            | Raise e => Raise e
            end,
            after_enqueue request entries w))
    ∧ (∀ e, sqs_client w = false → boto3_client = Raise e →
       ∃ entries, enqueue (PDict task) w = (Raise e, after_draw entries w)).
Proof.
  eexists (envelope (next_task_id uuid4 w) (next_created_at now_utc w) task), _.
  split; [reflexivity|]. unfold envelope. split_and!.
  - intros k v Hk. by apply lookup_union_Some_l.
  - intros Hnone. by rewrite lookup_union_r.
  - intros Hnone. by rewrite lookup_union_r.
  - intros k Hid Hat. destruct (task !! k) as [v|] eqn:Hk.
    + by apply lookup_union_Some_l.
    + rewrite lookup_union_r by done.
      by rewrite !lookup_insert_ne.
  - intros Hready.
    destruct (send_to_queue_dict json_dumps uuid4 now_utc boto3_client
                send_message TASK_QUEUE_URL task w Hready) as (entries & Hrun).
    exists entries. exact Hrun.
  - intros e Hclient Hraise.
    apply (send_to_queue_no_client json_dumps uuid4 now_utc boto3_client
             send_message TASK_QUEUE_URL task e w Hclient Hraise).
Qed.

(** X10.  Called on a value that is not a dict, [send_to_queue] raises
    [TypeError] without calling the broker; an identifier has been drawn
    and the clock read by then. *)
Theorem send_to_queue_not_mapping (task_data : pyval) (w : world) :
  (∀ d, task_data ≠ PDict d) →
  ∃ message w',
    enqueue task_data w = (Raise (TypeError message), w')
    ∧ sqs_calls w' = sqs_calls w ∧ logged w' = logged w
    ∧ uuid_draws w' = S (uuid_draws w) ∧ clock_reads w' = S (clock_reads w).
Proof.
  intros Hnot. unfold Api.send_to_queue, Api.draw_uuid, Api.read_clock.
  destruct task_data; try (run; by eexists _, _).
  by destruct (Hnot d).
Qed.

(** X11.  [create_response] merges the headers it is given over the
    default ones: a header given wins, every other default stays; the
    status code and the serialized body do not depend on the headers. *)
Theorem create_response_headers (status_code : Z) (body : pyval)
    (extra : gmap string pyval) :
  ∃ headers,
    response_field (create_response json_dumps status_code body (Some extra))
      "headers" = Some (PDict headers)
    ∧ (∀ k, headers !! k = match extra !! k with
                           | Some v => Some v
                           | None => default_headers !! k
                           end)
    ∧ response_field (create_response json_dumps status_code body (Some extra))
        "statusCode" = Some (PInt status_code)
    ∧ response_field (create_response json_dumps status_code body (Some extra))
        "body" = Some (PStr (json_dumps body)).
Proof.
  unfold create_response, response_field. simpl.
  case_bool_decide as Hempty; simpl.
  - exists default_headers. split_and!; try done.
    intros k. by rewrite Hempty, lookup_empty.
  - exists (extra ∪ default_headers). split_and!; try done.
    intros k. destruct (extra !! k) as [v|] eqn:Hk.
    + by apply lookup_union_Some_l.
    + by rewrite lookup_union_r.
Qed.

End enqueue_more.

Lemma send_to_queue_not_mapping_witness :
  ∃ message w',
    Api.send_to_queue Samples.dumps Samples.uuid4 Samples.now_utc
      Samples.boto3_client
      Samples.send_message Samples.queue_url (PList []) initial_world
    = (Raise (TypeError message), w')
    ∧ sqs_calls w' = sqs_calls initial_world ∧ logged w' = logged initial_world
    ∧ uuid_draws w' = S (uuid_draws initial_world)
    ∧ clock_reads w' = S (clock_reads initial_world).
Proof.
  apply (send_to_queue_not_mapping Samples.dumps Samples.uuid4 Samples.now_utc
    Samples.boto3_client
           Samples.send_message Samples.queue_url (PList []) initial_world).
  intros d. discriminate.
Defined.

Lemma send_to_queue_submits_witness :
  ∃ body : gmap string pyval,
    body !! "task_id" = Some (PStr "chosen-by-the-caller").
Proof.
  destruct (send_to_queue_submits Samples.dumps Samples.uuid4 Samples.now_utc
              Samples.boto3_client Samples.send_message Samples.queue_url
              (<["task_id" := PStr "chosen-by-the-caller"]> ∅) initial_world)
    as (body & _ & _ & Hkeys & _).
  exists body. apply Hkeys. reflexivity.
Defined.

(** ** More on the ingestion handler *)

Section ingestion_more.
Import Api ApiSpec.
Variable json_loads : string → outcome pyval.
Variable json_dumps : pyval → string.
Variable fromisoformat_accepts : string → bool.
Variable uuid4 : nat → string.
Variable now_utc : nat → datetime.
Variable boto3_client : outcome ().
Variable send_message : list send_request → send_request → outcome pyval.
Variable TASK_QUEUE_URL : string.

Local Notation "'ingest'" :=
  (Api.lambda_handler json_loads json_dumps fromisoformat_accepts uuid4 now_utc
  boto3_client
     send_message TASK_QUEUE_URL).
Local Notation "'validate'" := (Api.validate_task fromisoformat_accepts).
Local Notation "'respond'" := (Api.create_response json_dumps).
Local Notation "'request_for'" :=
  (ApiSpec.enqueue_request json_dumps uuid4 now_utc TASK_QUEUE_URL).
Local Notation "'accepted'" :=
  (Serving.accepted json_loads fromisoformat_accepts).
Local Notation "'serve'" :=
  (Serving.serve json_loads json_dumps fromisoformat_accepts uuid4 now_utc
     boto3_client send_message TASK_QUEUE_URL).
Local Notation "'submitted'" := (Serving.submitted json_loads).
Local Notation "'message_of'" :=
  (Serving.message json_loads json_dumps uuid4 now_utc TASK_QUEUE_URL).

Lemma accepted_true event :
  accepted event = true ↔
  ∃ task_data, request_task json_loads event = Return task_data
               ∧ validate task_data = Return (true, None).
Proof.
  unfold Serving.accepted. split.
  - destruct (request_task json_loads event) as [task_data|e]; [|done].
    destruct (validate task_data) as [[[|] message]|e] eqn:Hv; try done.
    intros _. exists task_data. split; [done|].
    by destruct (validate_task_accepts _ _ _ Hv) as [-> _].
  - intros (task_data & -> & ->). done.
Qed.

Lemma submitted_task event task_data task :
  request_task json_loads event = Return task_data →
  sanitize_task task_data = Return (PDict task) →
  submitted event = task.
Proof. unfold Serving.submitted. intros -> Hs. simpl. by rewrite Hs. Qed.

(** The world a run leaves: the log grown and nothing else when the request
    is not accepted; one enqueue when it is and a client is at hand; an
    identifier and a reading of the clock spent when it is and creating the
    client raises. *)
Lemma lambda_handler_world event w :
  ∃ entries,
    (ingest event w).2 =
      if accepted event
      then if client_ready boto3_client w
           then after_enqueue (request_for w (submitted event)) entries w
           else after_draw entries w
      else append_log entries w.
Proof.
  destruct (accepted event) eqn:Hacc.
  - apply accepted_true in Hacc as (task_data & Hreq & Hv).
    destruct (client_ready boto3_client w) eqn:Hready.
    + destruct (lambda_handler_accepts json_loads json_dumps
                  fromisoformat_accepts uuid4 now_utc boto3_client send_message
                  TASK_QUEUE_URL event task_data w Hreq Hv Hready)
        as (task & entries & Hs & _ & _ & Hrun).
      exists entries. by rewrite Hrun, (submitted_task _ _ _ Hreq Hs).
    + apply client_ready_false in Hready as (Hclient & e & Hraise).
      destruct (lambda_handler_no_client json_loads json_dumps
                  fromisoformat_accepts uuid4 now_utc boto3_client send_message
                  TASK_QUEUE_URL event task_data e w Hreq Hv Hclient Hraise)
        as (entries & Hrun).
      exists entries. by rewrite Hrun.
  - destruct (request_task json_loads event) as [task_data|e] eqn:Hreq.
    + destruct (validate task_data) as [[[|] message]|e] eqn:Hv.
      * destruct (validate_task_accepts _ _ _ Hv) as [-> _].
        assert (accepted event = true) as Hyes
          by (apply accepted_true; eauto).
        congruence.
      * destruct (lambda_handler_rejects json_loads json_dumps
                    fromisoformat_accepts uuid4 now_utc boto3_client
                    send_message TASK_QUEUE_URL event task_data message w
                    Hreq Hv)
          as (entries & Hrun).
        exists entries. by rewrite Hrun.
      * destruct (lambda_handler_request json_loads json_dumps
                    fromisoformat_accepts uuid4 now_utc boto3_client
                    send_message TASK_QUEUE_URL event task_data w Hreq)
          as (entries & Hrun).
        rewrite (handle_task_raises _ _ _ _ _ _ _ _ _ _ Hv) in Hrun.
        eexists. rewrite Hrun. simpl. by rewrite append_log_app.
    + destruct (lambda_handler_request_raises json_loads json_dumps
                  fromisoformat_accepts uuid4 now_utc boto3_client send_message
                  TASK_QUEUE_URL event e w Hreq) as (entries & Hrun).
      exists entries. by rewrite Hrun.
Qed.

(** X12.  A run on a request that is not accepted changes nothing but the
    log: no identifier is drawn, the clock is not read, the broker is not
    called and no client is created.  A run on an accepted request with a
    client at hand (there is one, or creating one succeeds) is one enqueue:
    one identifier, one reading of the clock, one call, under the
    identifier drawn.  A run on an accepted request without a client, when
    creating one raises, spends an identifier and a reading of the clock
    and calls the broker not at all.  A client already created stays. *)
Theorem lambda_handler_effects (event : pyval) (w : world) :
  (accepted event = false →
   ∃ entries, (ingest event w).2 = append_log entries w)
  ∧ (accepted event = true → client_ready boto3_client w = true →
     ∃ request entries,
       (ingest event w).2 = after_enqueue request entries w
       ∧ MessageDeduplicationId request = uuid4 (uuid_draws w))
  ∧ (accepted event = true → client_ready boto3_client w = false →
     ∃ entries, (ingest event w).2 = after_draw entries w)
  ∧ (sqs_client w = true → sqs_client (ingest event w).2 = true).
Proof.
  destruct (lambda_handler_world event w) as (entries & Hworld).
  split_and!.
  - intros Hacc. rewrite Hacc in Hworld. by exists entries.
  - intros Hacc Hready. rewrite Hacc, Hready in Hworld. by eexists _, entries.
  - intros Hacc Hready. rewrite Hacc, Hready in Hworld. by exists entries.
  - intros Hclient. rewrite Hworld.
    destruct (accepted event); [|done].
    by destruct (client_ready boto3_client w).
Qed.



Lemma message_first (w : world) (event : pyval) :
  request_for w (submitted event) = message_of w 0 event.
Proof.
  unfold Serving.message, enqueue_request, next_task_id, next_created_at.
  by rewrite !Nat.add_0_r.
Qed.

Lemma message_later (w w1 : world) (i : nat) (event : pyval) :
  uuid_draws w1 = S (uuid_draws w) → clock_reads w1 = S (clock_reads w) →
  message_of w1 i event = message_of w (S i) event.
Proof.
  intros Hdraws Hreads. unfold Serving.message.
  by rewrite Hdraws, Hreads, !Nat.add_succ_r.
Qed.

Lemma serve_requests (events : list pyval) : ∀ w,
  client_ready boto3_client w = true →
  sqs_calls (serve events w).2
  = sqs_calls w ++ imap (message_of w) (filter (λ e, Is_true (accepted e)) events).
Proof.
  induction events as [|event rest IH]; intros w Hready.
  - simpl. by rewrite app_nil_r.
  - simpl. destruct (lambda_handler_world event w) as (entries & Hworld).
    destruct (ingest event w) as [response w1] eqn:Hrun. simpl in Hworld.
    rewrite Hready in Hworld.
    assert (client_ready boto3_client w1 = true) as Hready1.
    { rewrite Hworld. by destruct (accepted event). }
    specialize (IH w1 Hready1).
    destruct (serve rest w1) as [responses w2]. simpl in *.
    rewrite IH, filter_cons. destruct (accepted event); simpl.
    + rewrite Hworld, message_first. simpl. rewrite <- app_assoc. simpl.
      do 2 f_equal. apply imap_ext. intros i e _.
      by apply message_later.
    + by rewrite Hworld.
Qed.

(** X15.  Requests served one after the other, with a client at hand (there
    is one, or creating one succeeds), are enqueued in the order they
    arrive: the calls made are, in order, one per accepted request and
    none for the others, the [i]-th of them carrying the task that the
    [i]-th accepted request submits, under the [i]-th identifier drawn.
    Rejected requests leave no gap in the identifiers, which are pairwise
    distinct when the generator never repeats. *)
Theorem serve_enqueues_in_order (events : list pyval) (w : world) :
  client_ready boto3_client w = true →
  sqs_calls (serve events w).2
  = sqs_calls w ++ imap (message_of w) (filter (λ e, Is_true (accepted e)) events)
  ∧ ((∀ i j, uuid4 i = uuid4 j → i = j) →
     NoDup (MessageDeduplicationId
              <$> imap (message_of w)
                    (filter (λ e, Is_true (accepted e)) events))).
Proof.
  intros Hready. split; [by apply serve_requests|].
  intros Hinj. generalize (filter (λ e, Is_true (accepted e)) events).
  intros l. rewrite fmap_imap.
  apply NoDup_alt. intros i j x Hi Hj.
  rewrite list_lookup_imap in Hi. rewrite list_lookup_imap in Hj.
  destruct (l !! i) as [a|]; [|done]. destruct (l !! j) as [b|]; [|done].
  simpl in Hi, Hj. injection Hi as <-. injection Hj as Hij.
  apply Hinj in Hij. lia.
Qed.

End ingestion_more.

Lemma lambda_handler_effects_witness :
  ∃ request entries,
    (Api.lambda_handler Samples.loads Samples.dumps Samples.accepts Samples.uuid4
       Samples.now_utc Samples.boto3_client Samples.send_message
       Samples.queue_url Samples.request initial_world).2
    = ApiSpec.after_enqueue request entries initial_world
    ∧ MessageDeduplicationId request = Samples.uuid4 (uuid_draws initial_world).
Proof.
  apply (proj1 (proj2 (lambda_handler_effects Samples.loads Samples.dumps
                         Samples.accepts Samples.uuid4 Samples.now_utc
                         Samples.boto3_client Samples.send_message
                         Samples.queue_url Samples.request initial_world)));
    vm_compute; reflexivity.
Defined.



Lemma serve_enqueues_in_order_witness :
  sqs_calls
    (Serving.serve Samples.loads Samples.dumps Samples.accepts pretty
       Samples.now_utc Samples.boto3_client Samples.send_message
       Samples.queue_url
       [Samples.request; PDict ∅; Samples.request] initial_world).2
  = sqs_calls initial_world
    ++ imap (Serving.message Samples.loads Samples.dumps pretty Samples.now_utc
               Samples.queue_url initial_world)
         (filter (λ e, Is_true (Serving.accepted Samples.loads Samples.accepts e))
            [Samples.request; PDict ∅; Samples.request])
  ∧ NoDup (MessageDeduplicationId
             <$> imap (Serving.message Samples.loads Samples.dumps pretty
                         Samples.now_utc Samples.queue_url initial_world)
                   (filter
                      (λ e, Is_true
                              (Serving.accepted Samples.loads Samples.accepts e))
                      [Samples.request; PDict ∅; Samples.request])).
Proof.
  destruct (serve_enqueues_in_order Samples.loads Samples.dumps
              Samples.accepts pretty Samples.now_utc Samples.boto3_client
              Samples.send_message Samples.queue_url
              [Samples.request; PDict ∅; Samples.request] initial_world
              eq_refl) as [Hcalls Hdistinct].
  split; [exact Hcalls|].
  apply Hdistinct. intros i j. apply (inj pretty).
Defined.

(** ** More on the processor and the batch consumer *)

Lemma filter_ext_in {A} (P Q : A → Prop) `{!∀ x, Decision (P x)}
    `{!∀ x, Decision (Q x)} (l : list A) :
  (∀ x, x ∈ l → P x ↔ Q x) → filter P l = filter Q l.
Proof.
  induction l as [|a l IH]; intros Hext; [done|].
  rewrite !filter_cons.
  rewrite IH by (intros x Hx; apply Hext; by right).
  apply decide_ext, Hext. by left.
Qed.

(** X16.  [process_task] looks at which of the five required keys a dict
    has and at the value of [task_id], and at nothing else: two dicts that
    agree on these have the same outcome, whatever their titles,
    descriptions, priorities or dates are.  The consumer does not validate
    the values it is given. *)
Theorem process_task_presence_only (d d' : gmap string pyval) (w w' : world) :
  (∀ f, f ∈ QueueProcessor.required_fields → d !! f = None ↔ d' !! f = None) →
  d !! "task_id" = d' !! "task_id" →
  (QueueProcessor.process_task (PDict d) w).1
  = (QueueProcessor.process_task (PDict d') w').1.
Proof.
  intros Hpresent Hid.
  destruct (process_task_run (PDict d)) as (es & _ & ->).
  destruct (process_task_run (PDict d')) as (es' & _ & ->).
  simpl. rewrite !process_task_dict, Hid.
  unfold QueueSpec.missing_fields.
  by rewrite (filter_ext_in _ (λ f, d' !! f = None) _ Hpresent).
Qed.

Lemma process_task_presence_only_witness :
  (QueueProcessor.process_task (PDict Samples.envelope) initial_world).1
  = (QueueProcessor.process_task
       (PDict (<["priority" := PStr "urgent"]>
                 (<["title" := PNone]> Samples.envelope)))
       initial_world).1.
Proof.
  apply (process_task_presence_only Samples.envelope
           (<["priority" := PStr "urgent"]>
              (<["title" := PNone]> Samples.envelope))
           initial_world initial_world); [|reflexivity].
  intros f Hf. unfold QueueProcessor.required_fields in Hf.
  repeat (apply elem_of_cons in Hf as [->|Hf]; [by vm_compute|]).
  by apply elem_of_nil in Hf.
Defined.

Section consumer_more.
Import QueueProcessor QueueSpec.
Variable json_loads : string → outcome pyval.

Lemma process_records_app records1 records2 : ∀ failures w,
  process_records json_loads (records1 ++ records2) failures w
  = match process_records json_loads records1 failures w with
    | (Return failures', w') => process_records json_loads records2 failures' w'
    | (Raise e, w') => (Raise e, w')
    end.
Proof.
  induction records1 as [|record rest IH]; intros failures w; [done|].
  simpl. rewrite !run_bind.
  destruct (process_record json_loads record failures w) as [[fs|e] w1]; [|done].
  apply IH.
Qed.

(** X17.  A record that is not a dict makes the handler raise
    [AttributeError]: the records before it have been attempted, those
    after it are not, and what was collected about the failures is lost
    with the exception. *)
Theorem lambda_handler_record_not_dict_aborts (ev : gmap string pyval)
    (before : list (gmap string pyval)) (record : pyval) (after : list pyval)
    (w : world) :
  (∀ d, record ≠ PDict d) →
  ∃ w',
    lambda_handler json_loads
      (PDict (<["Records" := PList ((PDict <$> before) ++ record :: after)]> ev)) w
    = (Raise (no_attribute record "get"), w')
    ∧ attempted w' = attempted w ++ (message_id <$> before).
Proof.
  intros Hnot. unfold lambda_handler.
  set (first := Log INFO "Processing batch of {} messages"
                  [PInt (Z.of_nat (length ((PDict <$> before) ++ record :: after)))]).
  destruct (process_records_dicts json_loads before [] (append_log [first] w))
    as (es & Hes & Hrun).
  simpl in Hrun.
  assert (process_record json_loads record
            (failed_identifiers json_loads before)
            (append_log es (append_log [first] w))
          = (Raise (no_attribute record "get"),
             append_log es (append_log [first] w))) as Hstop.
  { destruct record; try done. by destruct (Hnot d). }
  eexists. split.
  - run. rewrite lookup_insert_eq. run.
    rewrite process_records_app. fold first. rewrite Hrun. simpl.
    rewrite run_bind, Hstop. reflexivity.
  - rewrite !attempted_append, Hes. simpl. by rewrite app_nil_r.
Qed.

Lemma filter_none {A} (P : A → Prop) `{!∀ x, Decision (P x)} (l : list A) :
  (∀ x, x ∈ l → ¬ P x) → filter P l = [].
Proof.
  induction l as [|a l IH]; intros Hnone; [done|].
  rewrite filter_cons_False by (apply Hnone; by left).
  apply IH. intros x Hx. apply Hnone. by right.
Qed.

(** X18.  Redelivery changes nothing: a batch made of the records that
    failed reports every one of them again, in the same order, and a batch
    made of the records that succeeded reports none. *)
Theorem lambda_handler_redelivery (ev : gmap string pyval)
    (records : list (gmap string pyval)) (w : world) :
  (∃ w',
     lambda_handler json_loads
       (PDict (<["Records" :=
                   PList (PDict <$> filter (λ r, Is_true (item_fails json_loads r))
                                      records)]> ev)) w
     = (Return (batch_result (failed_identifiers json_loads records)), w'))
  ∧ (∃ w',
       lambda_handler json_loads
         (PDict (<["Records" :=
                     PList (PDict <$> filter (λ r, ¬ item_fails json_loads r)
                                        records)]> ev)) w
       = (Return (batch_result []), w')).
Proof.
  split.
  - destruct (lambda_handler_records json_loads
                (<["Records" :=
                    PList (PDict <$> filter (λ r, Is_true (item_fails json_loads r))
                                       records)]> ev)
                (filter (λ r, Is_true (item_fails json_loads r)) records) w)
      as (es & _ & Hrun); [apply lookup_insert_eq|].
    eexists. rewrite Hrun. unfold failed_identifiers.
    by rewrite list_filter_filter_l.
  - destruct (lambda_handler_records json_loads
                (<["Records" :=
                    PList (PDict <$> filter (λ r, ¬ item_fails json_loads r)
                                       records)]> ev)
                (filter (λ r, ¬ item_fails json_loads r) records) w)
      as (es & _ & Hrun); [apply lookup_insert_eq|].
    eexists. rewrite Hrun. unfold failed_identifiers.
    rewrite filter_none; [done|].
    intros r Hr. by apply list_elem_of_filter in Hr as [Hr _].
Qed.

Lemma logs_only_any {A} (P : log_entry → Prop) (m : M A) :
  logs_only P m → logs_only (λ _, True) m.
Proof.
  intros (o & es & _ & H). exists o, es. split; [|done].
  by apply Forall_forall.
Qed.

Lemma process_record_logs_only record failures :
  logs_only (λ _, True) (process_record json_loads record failures).
Proof.
  unfold process_record.
  apply logs_only_bind; [apply logs_only_lift|intros message_id].
  apply logs_only_bind; [apply logs_only_lift|intros receipt_handle].
  apply logs_only_try.
  - apply logs_only_bind; [by apply logs_only_log|intros _].
    apply logs_only_bind; [apply logs_only_lift|intros task_data].
    apply logs_only_bind;
      [apply (logs_only_any quiet), process_task_logs_only|intros result].
    apply logs_only_bind; [by apply logs_only_log|intros _].
    apply logs_only_ret.
  - intros e.
    destruct e;
      (apply logs_only_bind; [by apply logs_only_log|intros _];
       apply logs_only_ret).
Qed.

Lemma process_records_logs_only records : ∀ failures,
  logs_only (λ _, True) (process_records json_loads records failures).
Proof.
  induction records as [|record rest IH]; intros failures; simpl.
  - apply logs_only_ret.
  - apply logs_only_bind; [apply process_record_logs_only|apply IH].
Qed.

(** X19.  The batch handler keeps no state: for every event, well formed
    or not, what it returns or raises and the lines it logs are the same in
    every world, and all it does to the world is to append those lines.  It
    never calls the broker, and acknowledges or deletes nothing. *)
Theorem lambda_handler_stateless (event : pyval) :
  ∃ o entries, ∀ w,
    lambda_handler json_loads event w = (o, append_log entries w).
Proof.
  assert (logs_only (λ _, True) (lambda_handler json_loads event))
    as (o & entries & _ & Hrun).
  { unfold lambda_handler.
    apply logs_only_bind; [apply logs_only_lift|intros records].
    apply logs_only_bind; [apply logs_only_lift|intros n].
    apply logs_only_bind; [by apply logs_only_log|intros _].
    apply logs_only_bind; [apply logs_only_lift|intros records'].
    apply logs_only_bind; [apply logs_only_lift|intros items].
    apply logs_only_bind; [apply process_records_logs_only|intros failures].
    apply logs_only_bind; [|intros _; apply logs_only_ret].
    destruct (truthy (PList failures)); by apply logs_only_log. }
  by exists o, entries.
Qed.

End consumer_more.

Lemma lambda_handler_record_not_dict_aborts_witness :
  ∃ w',
    QueueProcessor.lambda_handler Samples.loads
      (PDict (<["Records" :=
                  PList ((PDict <$> [Samples.record "m1" (PStr "{}")])
                         ++ PStr "m2" :: [])]> ∅))
      initial_world
    = (Raise (no_attribute (PStr "m2") "get"), w')
    ∧ QueueSpec.attempted w'
      = QueueSpec.attempted initial_world
        ++ (QueueSpec.message_id <$> [Samples.record "m1" (PStr "{}")]).
Proof.
  apply (lambda_handler_record_not_dict_aborts Samples.loads ∅
           [Samples.record "m1" (PStr "{}")] (PStr "m2") [] initial_world).
  intros d. discriminate.
Defined.

Section batch_log.
Import QueueProcessor QueueSpec.
Variable json_loads : string → outcome pyval.

(** X20.  On a batch of dict records the first line logged gives the
    number of records, and the last line is the summary: a warning with
    the number of failed records when there is one, the all-clear
    otherwise. *)
Theorem lambda_handler_log_summary (ev : gmap string pyval)
    (records : list (gmap string pyval)) (w : world) :
  ∃ middle,
    logged (lambda_handler json_loads
              (PDict (<["Records" := PList (PDict <$> records)]> ev)) w).2
    = logged w
      ++ BatchLog.opening (length records) :: middle
      ++ [BatchLog.closing (failed_identifiers json_loads records)].
Proof.
  unfold lambda_handler.
  destruct (process_records_dicts json_loads records []
              (append_log [BatchLog.opening (length (PDict <$> records))] w))
    as (middle & _ & Hrun).
  simpl in Hrun. exists middle.
  run. rewrite lookup_insert_eq. run.
  unfold BatchLog.opening in Hrun. rewrite Hrun.
  rewrite length_fmap.
  destruct (failed_identifiers json_loads records); run;
    by rewrite <- !app_assoc.
Qed.

End batch_log.

(** ** From a request to its processing *)

Section pipeline.
Import Api ApiSpec.
Variable json_loads : string → outcome pyval.
Variable json_dumps : pyval → string.
Variable fromisoformat_accepts : string → bool.
Variable uuid4 : nat → string.
Variable now_utc : nat → datetime.
Variable boto3_client : outcome ().
Variable send_message : list send_request → send_request → outcome pyval.
Variable TASK_QUEUE_URL : string.

Local Notation "'ingest'" :=
  (Api.lambda_handler json_loads json_dumps fromisoformat_accepts uuid4 now_utc
  boto3_client
     send_message TASK_QUEUE_URL).
Local Notation "'validate'" := (Api.validate_task fromisoformat_accepts).

(** X21.  The message enqueued for an accepted request passes the consumer.
    With a client at hand (there is one, or creating one succeeds) the
    request's message is sent under the identifier drawn for it; when
    [json.loads] gives back the envelope that [json.dumps] serialized, a
    record with that message as its body is decoded and processed without
    failure, and the result is a dict whose [task_id] is that identifier
    and whose [status] is [completed]. *)
Theorem enqueued_message_is_processed (event task_data : pyval) (w : world) :
  request_task json_loads event = Return task_data →
  validate task_data = Return (true, None) →
  client_ready boto3_client w = true →
  ∃ body request,
    sqs_calls (ingest event w).2 = sqs_calls w ++ [request]
    ∧ MessageBody request = json_dumps (PDict body)
    ∧ MessageDeduplicationId request = uuid4 (uuid_draws w)
    ∧ (json_loads (json_dumps (PDict body)) = Return (PDict body) →
       ∀ record : gmap string pyval,
         record !! "body" = Some (PStr (MessageBody request)) →
         (∃ result : gmap string pyval,
            QueueSpec.item_outcome json_loads (PDict record)
            = Return (PDict result)
            ∧ result !! "task_id" = Some (PStr (uuid4 (uuid_draws w)))
            ∧ result !! "status" = Some (PStr "completed"))
         ∧ QueueSpec.failed_identifiers json_loads [record] = []).
Proof.
  intros Hreq Hv Hready.
  destruct (lambda_handler_accepts json_loads json_dumps fromisoformat_accepts
              uuid4 now_utc boto3_client send_message TASK_QUEUE_URL event
              task_data w Hreq Hv Hready)
    as (task & entries & Hs & Hid & Hat & Hrun).
  destruct (sanitize_task_returns _ _ Hs)
    as (d & t & ds & p & -> & Ht & Hds & Hp & Hfalsy).
  rewrite (sanitize_task_strings d t ds p Ht Hds Hp Hfalsy) in Hs.
  injection Hs as <-.
  set (task := normalized (Str.strip t) (Str.strip ds)
                 (Str.lower (Str.strip p)) (Str.strip <$> due_date_kept d)) in *.
  destruct (envelope_lookup (next_task_id uuid4 w) (next_created_at now_utc w)
              task Hid Hat) as (Hbody_id & Hbody_at & Hbody_task).
  set (body := envelope (next_task_id uuid4 w) (next_created_at now_utc w) task)
    in *.
  assert (is_Some (body !! "title") ∧ is_Some (body !! "description")
          ∧ is_Some (body !! "priority")) as (Htitle & Hdescription & Hpriority).
  { split_and!; eexists; apply Hbody_task; subst task;
      by destruct (Str.strip <$> due_date_kept d). }
  exists body, (enqueue_request json_dumps uuid4 now_utc TASK_QUEUE_URL w task).
  rewrite Hrun. split; [done|]. split; [done|]. split; [done|].
  intros Hround record Hrecord.
  assert (QueueSpec.item_outcome json_loads (PDict record)
          = Return (QueueProcessor.completed (PStr (uuid4 (uuid_draws w)))))
    as Hout.
  { unfold QueueSpec.item_outcome, QueueProcessor.parse_body. simpl.
    rewrite Hrecord. simpl. fold body. rewrite Hround. simpl.
    rewrite process_task_dict.
    assert (QueueSpec.missing_fields body = []) as ->.
    { apply missing_fields_nil. unfold QueueProcessor.required_fields.
      repeat constructor; try done; by eexists. }
    by rewrite Hbody_id. }
  split.
  - eexists. split; [exact Hout|]. by split.
  - unfold QueueSpec.failed_identifiers, QueueSpec.item_fails.
    by rewrite filter_cons, Hout.
Qed.

End pipeline.

Lemma enqueued_message_is_processed_witness :
  ∃ body request,
    sqs_calls
      (Api.lambda_handler Delivered.loads Samples.dumps Samples.accepts
         Samples.uuid4 Samples.now_utc Samples.boto3_client
         Samples.send_message Samples.queue_url
         Samples.request initial_world).2
    = sqs_calls initial_world ++ [request]
    ∧ MessageBody request = Samples.dumps (PDict body)
    ∧ MessageDeduplicationId request = Samples.uuid4 (uuid_draws initial_world)
    ∧ (Delivered.loads (Samples.dumps (PDict body)) = Return (PDict body) →
       ∀ record : gmap string pyval,
         record !! "body" = Some (PStr (MessageBody request)) →
         (∃ result : gmap string pyval,
            QueueSpec.item_outcome Delivered.loads (PDict record)
            = Return (PDict result)
            ∧ result !! "task_id"
              = Some (PStr (Samples.uuid4 (uuid_draws initial_world)))
            ∧ result !! "status" = Some (PStr "completed"))
         ∧ QueueSpec.failed_identifiers Delivered.loads [record] = []).
Proof.
  apply (enqueued_message_is_processed Delivered.loads Samples.dumps
           Samples.accepts Samples.uuid4 Samples.now_utc Samples.boto3_client
           Samples.send_message Samples.queue_url Samples.request
           (PDict Samples.report) initial_world);
    vm_compute; reflexivity.
Defined.

(** The sample request end to end: its message, delivered, is processed. *)
Example sample_request_is_processed :
  (QueueProcessor.lambda_handler Delivered.loads
     (PDict {[ "Records" :=
                 PList [PDict (Samples.record "m1" (PStr Delivered.envelope_text))] ]})
     initial_world).1
  = Return (QueueSpec.batch_result [])
  ∧ MessageBody <$>
      sqs_calls
        (Api.lambda_handler Delivered.loads Samples.dumps Samples.accepts
           Samples.uuid4 Samples.now_utc
           Samples.boto3_client Samples.send_message Samples.queue_url
           Samples.request initial_world).2
    = [Delivered.envelope_text].
Proof. split; vm_compute; reflexivity. Qed.

Lemma sanitize_task_returns_iff_witness :
  (∃ k, ({[ "description" := PStr "d" ]} : gmap string pyval) !! k = None
        ∧ KeyError "title" = KeyError k)
  ∨ (∃ m, KeyError "title" = AttributeError m).
Proof.
  apply (proj2 (sanitize_task_returns_iff {[ "description" := PStr "d" ]})
           (KeyError "title")).
  vm_compute. reflexivity.
Defined.
